(** * Sora-2 generate-and-download pipeline: a shallow embedding

    The script under verification is a sequential client of a hosted
    text-to-video service.  It reads its configuration from the process
    environment, submits one creation request ([generate_video]), polls
    the job every ten seconds until a terminal status shows up
    ([wait_for_completion]), downloads the artifact on success
    ([download_video]) and wraps the three stages in one [try]/[except]
    ([main]).

    The embedding is a state-passing one.  The remote service, the clock
    and the file system form a [World] whose operations are the members
    of the class [Collaborators]; a program is a function from the world
    to a [run]: the events it performed, its outcome and the world it
    left behind.  The [while] loop of the poller is the only source of
    non-termination, it is given fuel, and [OutOfFuel] is a third outcome
    beside returning and raising.  Console output and sleeping always
    succeed.  A raised exception records whether it is an instance of
    [Exception]: the [except] clause of [main] catches those and lets
    the others ([KeyboardInterrupt], [SystemExit]) through. *)

From Stdlib Require Import ZArith QArith String Ascii List Lia.
From stdpp Require Import base gmap strings list pretty.

Local Open Scope Z_scope.
Local Open Scope string_scope.
Local Open Scope list_scope.

(** ** Python values and library functions the script relies on *)

Definition nl : string := String (ascii_of_nat 10) EmptyString.

(** [s * n] on strings. *)
Fixpoint str_mul (s : string) (n : nat) : string :=
  match n with
  | O => ""
  | S n' => s +:+ str_mul s n'
  end.

(** [x in l] for a list of strings: equality against each element. *)
Definition py_in (x : string) (l : list string) : bool :=
  existsb (String.eqb x) l.

(** [str.startswith] and [str.endswith] for a one-character argument. *)
Definition startswith_char (s : string) (c : ascii) : bool :=
  match s with
  | String c' _ => Ascii.eqb c' c
  | EmptyString => false
  end.

Fixpoint endswith_char (s : string) (c : ascii) : bool :=
  match s with
  | EmptyString => false
  | String c' EmptyString => Ascii.eqb c' c
  | String _ rest => endswith_char rest c
  end.

(** [os.path.join a b] (POSIX flavour, two components): an absolute
    second component discards the first one, otherwise the components
    are glued with exactly one separator. *)
Definition os_path_join (a b : string) : string :=
  if startswith_char b "/" then b
  else if (String.eqb a "" || endswith_char a "/")%bool then a +:+ b
  else a +:+ "/" +:+ b.

(** [f"{n:,}"]: decimal digits in groups of three. *)
Fixpoint commas_rev (k : nat) (rev_digits : list ascii) : list ascii :=
  match rev_digits with
  | [] => []
  | d :: ds =>
      match k with
      | 3%nat => ("," :: d :: commas_rev 1 ds)%char
      | _ => d :: commas_rev (S k) ds
      end
  end.

Definition group_digits (s : string) : string :=
  string_of_list_ascii
    (rev (commas_rev 0 (rev (list_ascii_of_string s)))).

Definition format_commas (n : Z) : string :=
  if Z.ltb n 0 then "-" +:+ group_digits (pretty (Z.opp n))
  else group_digits (pretty n).

(** [int(x)] on a clock difference: truncation toward zero.  Clock
    readings are modelled as exact rationals. *)
Definition py_int (q : Q) : Z := Z.quot (Qnum q) (Zpos (Qden q)).

(** A value found in an optional attribute of an SDK object. *)
Inductive pyval : Type :=
| PyNone
| PyStr (s : string)
| PyObj (shown : string).

(** Truthiness, as [if x:] tests it. *)
Definition truthy (v : pyval) : bool :=
  match v with
  | PyNone => false
  | PyStr s => negb (String.eqb s "")
  | PyObj _ => true
  end.

(** [str(x)] as an f-string renders it. *)
Definition py_str (v : pyval) : string :=
  match v with
  | PyNone => "None"
  | PyStr s => s
  | PyObj shown => shown
  end.

(** [not x] for the result of [os.getenv]: [None] and the empty string
    are both falsy. *)
Definition py_not (x : option string) : bool :=
  match x with
  | None => true
  | Some s => String.eqb s ""
  end.

(** ** Data model *)

(** The job snapshot the SDK hands back. [shown] is the text an f-string
    prints for the whole object. *)
Module Video.
Record t : Type := Build {
  id : string;
  status : string;
  model : string;
  created_at : Z;
  error : option pyval;
  failure_reason : option pyval;
  shown : string
}.
End Video.

(** A raised exception: [type(e).__name__], [str(e)] and whether it is
    an instance of [Exception]; [KeyboardInterrupt] and [SystemExit] are
    not. *)
Record exn : Type := Raised {
  exn_type : string;
  exn_str : string;
  is_exception : bool
}.

(** An instance of a subclass of [Exception]. *)
Definition Exn (type_name message : string) : exn :=
  Raised type_name message true.

(** The [OpenAI] client object built at import time. *)
Record Client : Type := { client_api_key : string; client_base_url : string }.

(** The binary payload of a download. *)
Definition Content : Type := list Byte.byte.

(** What a run does to the outside, in program order.  [EvEnter f] marks
    the entry into the script's function [f]; the other events are the
    calls of the same name. *)
Inductive event : Type :=
| EvEnter (f : string)
| EvPrint (s : string)
| EvCreate (model prompt size seconds : string)
| EvRetrieve (video_id : string)
| EvDownloadContent (video_id variant : string)
| EvSleep (secs : Z)
| EvMakedirs (path : string)
| EvWriteToFile (path : string).

(** The outside world: the SDK constructor, the remote service behind
    [client.videos], the clock and the file system. [openai_raises] is
    the exception [OpenAI(api_key=..., base_url=...)] raises for these
    arguments, an unparsable URL for one, and [None] when it builds the
    client. *)
Class Collaborators (World : Type) : Type := {
  openai_raises : string -> string -> World -> option exn;
  videos_create :
    Client -> string -> string -> string -> string ->
    World -> (exn + Video.t) * World;
  videos_retrieve : Client -> string -> World -> (exn + Video.t) * World;
  videos_download_content :
    Client -> string -> string -> World -> (exn + Content) * World;
  write_to_file : Content -> string -> World -> (exn + unit) * World;
  time_time : World -> Q;
  time_sleep : Z -> World -> World;
  os_path_exists : string -> World -> bool;
  os_makedirs : string -> World -> (exn + unit) * World;
  os_path_abspath : string -> World -> string;
  os_path_getsize : string -> World -> exn + Z
}.

(** ** Runs *)

Inductive outcome (A : Type) : Type :=
| Ret (a : A)
| Raise (e : exn)
| OutOfFuel.
Arguments Ret {A} a.
Arguments Raise {A} e.
Arguments OutOfFuel {A}.

Record run (W A : Type) : Type := Run {
  events : list event;
  result : outcome A;
  final : W
}.
Arguments Run {W A} _ _ _.
Arguments events {W A} _.
Arguments result {W A} _.
Arguments final {W A} _.

Definition M (W A : Type) : Type := W -> run W A.

Definition ret {W A} (a : A) : M W A := fun w => Run [] (Ret a) w.

Definition raise {W A} (e : exn) : M W A := fun w => Run [] (Raise e) w.

Definition out_of_fuel {W A} : M W A := fun w => Run [] OutOfFuel w.

Definition bind {W A B} (m : M W A) (f : A -> M W B) : M W B :=
  fun w =>
    let r := m w in
    match result r with
    | Ret a =>
        let r' := f a (final r) in
        Run (events r ++ events r') (result r') (final r')
    | Raise e => Run (events r) (Raise e) (final r)
    | OutOfFuel => Run (events r) OutOfFuel (final r)
    end.

(** [try: m except Exception as e: h e]. An exception that is not an
    instance of [Exception] passes through the clause. *)
Definition try_except {W A} (m : M W A) (h : exn -> M W A) : M W A :=
  fun w =>
    let r := m w in
    match result r with
    | Raise e =>
        if is_exception e then
          let r' := h e (final r) in
          Run (events r ++ events r') (result r') (final r')
        else r
    | _ => r
    end.

Declare Scope prog_scope.
Delimit Scope prog_scope with prog.
Notation "x <- m ;; k" := (bind m (fun x => k))
  (at level 100, m at next level, k at level 200, right associativity)
  : prog_scope.
Notation "m ;; k" := (bind m (fun _ => k))
  (at level 100, k at level 200, right associativity) : prog_scope.

(** A call that may raise and changes the world, logged as [ev]. *)
Definition call {W A} (ev : event) (op : W -> (exn + A) * W) : M W A :=
  fun w =>
    Run [ev]
        (match fst (op w) with inl e => Raise e | inr a => Ret a end)
        (snd (op w)).

Definition print {W} (s : string) : M W unit :=
  fun w => Run [EvPrint s] (Ret tt) w.

Definition enter {W} (f : string) : M W unit :=
  fun w => Run [EvEnter f] (Ret tt) w.

(** A read of the world that has no effect on it. *)
Definition peek {W A} (f : W -> A) : M W A := fun w => Run [] (Ret (f w)) w.

(** A read that may raise. *)
Definition peek_or_raise {W A} (f : W -> exn + A) : M W A :=
  fun w =>
    Run [] (match f w with inl e => Raise e | inr a => Ret a end) w.

Local Open Scope prog_scope.

(** ** Module-level configuration *)

(** [str.casefold] on a value of the environment: the letters A-Z go to
    a-z, and the long s (U+017F, the bytes 197 191) goes to "s"; no other
    character folds into a letter of the words tested below. *)
Definition lower (c : ascii) : ascii :=
  let n := nat_of_ascii c in
  if (Nat.leb 65 n && Nat.leb n 90)%bool then ascii_of_nat (n + 32) else c.

Fixpoint casefold (s : string) : string :=
  match s with
  | EmptyString => EmptyString
  | String c tail =>
      match tail with
      | String c' rest =>
          if (Nat.eqb (nat_of_ascii c) 197 &&
              Nat.eqb (nat_of_ascii c') 191)%bool
          then String "s" (casefold rest)
          else String (lower c) (casefold tail)
      | EmptyString => String (lower c) EmptyString
      end
  end.

(** [PYTHON_DOTENV_DISABLED] is set to a value that means yes. *)
Definition dotenv_disabled (environ : gmap string string) : bool :=
  match environ !! "PYTHON_DOTENV_DISABLED" with
  | Some value => py_in (casefold value) ["1"; "true"; "t"; "yes"; "y"]
  | None => false
  end.

(** [load_dotenv()] with its default [override=False]: entries of the
    [.env] file are added to the process environment, a variable that is
    already set keeps its value. Nothing is read when loading is
    disabled. *)
Definition load_dotenv (environ dotenv : gmap string string)
  : gmap string string :=
  if dotenv_disabled environ then environ else environ ∪ dotenv.

Definition os_getenv (environ : gmap string string) (name : string)
  : option string :=
  environ !! name.

(** The names the module binds before any function runs. *)
Record Globals : Type := {
  api_key : string;
  resource_name : string;
  model_name : string;
  base_url : string;
  client : Client
}.

Definition missing_variables : exn :=
  Exn "ValueError"
      ("Missing required environment variables. " +:+
       "Please copy .env.sample to .env and populate with your values.").

(** Lines 27-48 of the script: the [ValueError] is raised, or the
    constructor of the client raises, or the globals are bound. The
    client is kept as the arguments it was built from; building it
    sends nothing. *)
Definition module_init {World : Type} `{!Collaborators World}
    (environ dotenv : gmap string string) (w : World) : exn + Globals :=
  let environ := load_dotenv environ dotenv in
  let api_key := os_getenv environ "AZURE_API_KEY" in
  let resource_name := os_getenv environ "AZURE_RESOURCE_NAME" in
  let model_name := os_getenv environ "AZURE_MODEL_NAME" in
  if (py_not api_key || py_not resource_name || py_not model_name)%bool
  then inl missing_variables
  else
    let base_url := "https://" +:+ default "" resource_name +:+ "/openai/v1/" in
    match openai_raises (default "" api_key) base_url w with
    | Some e => inl e
    | None =>
        inr {| api_key := default "" api_key;
               resource_name := default "" resource_name;
               model_name := default "" model_name;
               base_url := base_url;
               client := {| client_api_key := default "" api_key;
                            client_base_url := base_url |} |}
    end.

Definition prompt : string :=
  "Young woman in her 20s, natural lighting, sitting in a cozy bedroom. She holds up a sleek wireless earbuds case excitedly to the camera. Authentic selfie-style video. She puts the earbuds in her ears, nods to music, and gives a thumbs up with a genuine smile. Casual outfit, messy bun hairstyle. iPhone front camera aesthetic. TikTok style UGC testimonial.".

Definition size : string := "720x1280".
Definition seconds : string := "12".
Definition output_dir : string := "videos".

(** The statuses that end the polling loop, and the seconds slept
    between two checks. *)
Definition terminal_statuses : list string :=
  ["completed"; "failed"; "cancelled"].

Definition is_terminal (status : string) : bool :=
  py_in status terminal_statuses.

Definition poll_interval : Z := 10.

(** ** The three stages and the orchestrator *)

Section Pipeline.
Context {World : Type} `{!Collaborators World}.
Variable g : Globals.

Definition sleep (secs : Z) : M World unit :=
  fun w => Run [EvSleep secs] (Ret tt) (time_sleep secs w).

Definition retrieve (video_id : string) : M World Video.t :=
  call (EvRetrieve video_id) (videos_retrieve (client g) video_id).

Definition generate_video : M World Video.t :=
  enter "generate_video" ;;
  print (str_mul "=" 60) ;;
  print "STEP 1: Starting Video Generation" ;;
  print (str_mul "=" 60) ;;
  print ("Endpoint URL: " +:+ base_url g +:+ "videos") ;;
  print ("Prompt: " +:+ prompt) ;;
  print ("Duration: " +:+ seconds +:+ " seconds") ;;
  print ("Resolution: " +:+ size) ;;
  print (str_mul "-" 60) ;;
  video <- call (EvCreate (model_name g) prompt size seconds)
                (videos_create (client g) (model_name g) prompt size seconds) ;;
  print (nl +:+ "✓ Video generation started successfully!") ;;
  print ("  Video ID: " +:+ Video.id video) ;;
  print ("  Status: " +:+ Video.status video) ;;
  print ("  Model: " +:+ Video.model video) ;;
  print ("  Created At: " +:+ pretty (Video.created_at video)) ;;
  ret video.

(** The body of the [while] loop: report, sleep, retrieve again. *)
Definition poll_once (video_id : string) (start_time : Q)
    (video : Video.t) : M World Video.t :=
  now <- peek time_time ;;
  let elapsed := py_int (Qminus now start_time) in
  print ("Status: " +:+ Video.status video +:+ " | Elapsed: " +:+
         pretty elapsed +:+ " seconds | Waiting " +:+
         pretty poll_interval +:+ "s...") ;;
  sleep poll_interval ;;
  retrieve video_id.

(** [while video.status not in [...]: body]. One unit of fuel pays for
    one execution of the body; the test itself costs nothing. *)
Fixpoint poll_while (fuel : nat) (video_id : string) (start_time : Q)
    (video : Video.t) : M World Video.t :=
  if negb (is_terminal (Video.status video)) then
    match fuel with
    | O => out_of_fuel
    | S fuel' =>
        video' <- poll_once video_id start_time video ;;
        poll_while fuel' video_id start_time video'
    end
  else ret video.

(** [if hasattr(video, a) and video.a: print(f"{label}{video.a}")]; an
    attribute the object does not have is [None] here. *)
Definition print_if_truthy (label : string) (a : option pyval)
  : M World unit :=
  match a with
  | Some v => if truthy v then print (label +:+ py_str v) else ret tt
  | None => ret tt
  end.

(** Lines 116-131: the closing report. *)
Definition report_outcome (start_time : Q) (video : Video.t)
  : M World unit :=
  now <- peek time_time ;;
  let total_elapsed := py_int (Qminus now start_time) in
  if String.eqb (Video.status video) "completed" then
    print (nl +:+ "✓ Video generation completed!") ;;
    print ("  Total time: " +:+ pretty total_elapsed +:+ " seconds")
  else
    print (nl +:+ "✗ Video generation ended with status: " +:+
           Video.status video) ;;
    print ("  Total time: " +:+ pretty total_elapsed +:+ " seconds") ;;
    print_if_truthy "  Error: " (Video.error video) ;;
    print_if_truthy "  Failure reason: " (Video.failure_reason video) ;;
    print (nl +:+ "  Full response: " +:+ Video.shown video).

Definition wait_for_completion (fuel : nat) (video_id : string)
  : M World Video.t :=
  enter "wait_for_completion" ;;
  print (nl +:+ str_mul "=" 60) ;;
  print "STEP 2: Waiting for Video Generation" ;;
  print (str_mul "=" 60) ;;
  print ("Video ID: " +:+ video_id) ;;
  print (str_mul "-" 60) ;;
  start_time <- peek time_time ;;
  video <- retrieve video_id ;;
  print ("Initial status: " +:+ Video.status video) ;;
  video <- poll_while fuel video_id start_time video ;;
  report_outcome start_time video ;;
  ret video.

Definition download_video (video_id : string) : M World string :=
  enter "download_video" ;;
  print (nl +:+ str_mul "=" 60) ;;
  print "STEP 3: Downloading Video" ;;
  print (str_mul "=" 60) ;;
  present <- peek (os_path_exists output_dir) ;;
  (if negb present then
     call (EvMakedirs output_dir) (os_makedirs output_dir) ;;
     print ("Created directory: " +:+ output_dir)
   else ret tt) ;;
  let output_file_path := os_path_join output_dir (video_id +:+ ".mp4") in
  print "Downloading video..." ;;
  print ("  Endpoint URL: " +:+ base_url g +:+ "videos/" +:+ video_id +:+
         "/content") ;;
  print ("  Video ID: " +:+ video_id) ;;
  print ("  Output Path: " +:+ output_file_path) ;;
  print (str_mul "-" 60) ;;
  content <- call (EvDownloadContent video_id "video")
                  (videos_download_content (client g) video_id "video") ;;
  call (EvWriteToFile output_file_path)
       (write_to_file content output_file_path) ;;
  print (nl +:+ "✓ Video saved successfully!") ;;
  location <- peek (os_path_abspath output_file_path) ;;
  print ("  Location: " +:+ location) ;;
  file_size <- peek_or_raise (os_path_getsize output_file_path) ;;
  print ("  File size: " +:+ format_commas file_size +:+ " bytes") ;;
  ret output_file_path.

(** The body of the [try] block of [main]. *)
Definition main_try (fuel : nat) : M World unit :=
  video <- generate_video ;;
  let video_id := Video.id video in
  completed_video <- wait_for_completion fuel video_id ;;
  if String.eqb (Video.status completed_video) "completed" then
    output_path <- download_video video_id ;;
    print (nl +:+ str_mul "=" 60) ;;
    print "PIPELINE COMPLETE" ;;
    print (str_mul "=" 60) ;;
    print ("Video ID: " +:+ video_id) ;;
    print ("Saved to: " +:+ output_path)
  else
    print (nl +:+ str_mul "=" 60) ;;
    print "PIPELINE FAILED" ;;
    print (str_mul "=" 60) ;;
    print "Video generation did not complete successfully." ;;
    print ("Final status: " +:+ Video.status completed_video) ;;
    print (nl +:+ "Common failure reasons:") ;;
    print "  - Copyrighted characters (Elmo, Mickey Mouse, etc.)" ;;
    print "  - Real celebrities or public figures" ;;
    print "  - Violent or inappropriate content" ;;
    print "  - Trademarked content".

(** The [except Exception as e] clause of [main]. *)
Definition main_except (e : exn) : M World unit :=
  print (nl +:+ "✗ Error: " +:+ exn_str e) ;;
  print ("Error type: " +:+ exn_type e) ;;
  print (nl +:+ "Troubleshooting:") ;;
  print "  - Verify your API key is correct" ;;
  print "  - Check that your Azure resource name is correct" ;;
  print "  - Ensure your Azure subscription has access to Sora-2" ;;
  print "  - Verify the prompt and parameters are valid".

Definition main (fuel : nat) : M World unit :=
  enter "main" ;;
  try_except (main_try fuel) main_except.

End Pipeline.

(** The whole script, run as [__main__]: the module level, then [main]. *)
Definition script {World : Type} `{!Collaborators World}
    (environ dotenv : gmap string string) (fuel : nat) : M World unit :=
  fun w =>
    match module_init environ dotenv w with
    | inl e => raise e w
    | inr g => main g fuel w
    end.

(** The status the interpreter exits with once the script is over: zero
    when the module ran to its end, one when an instance of [Exception]
    reached the top. None is given to a run that is still polling, nor
    to one ended by another exception, whose status depends on its kind
    ([SystemExit] carries its own). *)
Definition exit_status {A} (o : outcome A) : option Z :=
  match o with
  | Ret _ => Some 0
  | Raise e => if is_exception e then Some 1 else None
  | OutOfFuel => None
  end.

(** ** Observations on runs *)

Definition is_retrieve (e : event) : bool :=
  match e with EvRetrieve _ => true | _ => false end.

Definition is_sleep (e : event) : bool :=
  match e with EvSleep _ => true | _ => false end.

(** A call that goes over the network. *)
Definition is_remote (e : event) : bool :=
  match e with
  | EvCreate _ _ _ _ | EvRetrieve _ | EvDownloadContent _ _ => true
  | _ => false
  end.

(** The retrievals and sleeps of a run, in order, everything else
    dropped. *)
Definition timing (evs : list event) : list event :=
  List.filter (fun e => (is_retrieve e || is_sleep e)%bool) evs.

Definition retrievals (evs : list event) : nat :=
  length (List.filter is_retrieve evs).

Definition sleeps (evs : list event) : nat :=
  length (List.filter is_sleep evs).

(** Console output only. *)
Definition is_note (e : event) : bool :=
  match e with EvPrint _ => true | _ => false end.

Definition notes (evs : list event) : Prop :=
  Forall (fun e => is_note e = true) evs.

(** How often the script's function [f] was entered. *)
Definition is_enter (f : string) (e : event) : bool :=
  match e with EvEnter f' => String.eqb f f' | _ => false end.

Definition calls (f : string) (evs : list event) : nat :=
  length (List.filter (is_enter f) evs).

(** What [wait_for_completion] does before its first retrieval. *)
Definition announce_wait (video_id : string) : list event :=
  [EvEnter "wait_for_completion";
   EvPrint (nl +:+ str_mul "=" 60);
   EvPrint "STEP 2: Waiting for Video Generation";
   EvPrint (str_mul "=" 60);
   EvPrint ("Video ID: " +:+ video_id);
   EvPrint (str_mul "-" 60)].

(** [n] rounds of "sleep ten seconds, then retrieve". *)
Fixpoint rounds (video_id : string) (n : nat) : list event :=
  match n with
  | O => []
  | S n' => EvSleep poll_interval :: EvRetrieve video_id :: rounds video_id n'
  end.

Section Service.
Context {World : Type} `{!Collaborators World}.
Variable g : Globals.

(** The service asked about [video_id] every [poll_interval] seconds,
    first at once in world [w]: the [k]-th call (from 0) and the world
    it leaves. *)
Fixpoint poll_run (k : nat) (video_id : string) (w : World)
  : (exn + Video.t) * World :=
  match k with
  | O => videos_retrieve (client g) video_id w
  | S k' =>
      videos_retrieve (client g) video_id
        (time_sleep poll_interval (snd (poll_run k' video_id w)))
  end.

Definition reply (k : nat) (video_id : string) (w : World)
  : exn + Video.t :=
  fst (poll_run k video_id w).

(** Reply [j] is a snapshot with a non-terminal status. *)
Definition pending_at (video_id : string) (w : World) (j : nat) : Prop :=
  exists vj, reply j video_id w = inr vj /\
             is_terminal (Video.status vj) = false.

(** So are all the replies [0 .. n-1]. *)
Definition pending_until (n : nat) (video_id : string) (w : World) : Prop :=
  forall j, (j < n)%nat -> pending_at video_id w j.

(** Reply [n] is the first one with a terminal status, and it is [v]. *)
Definition first_terminal (n : nat) (v : Video.t) (video_id : string)
    (w : World) : Prop :=
  pending_until n video_id w /\
  reply n video_id w = inr v /\
  is_terminal (Video.status v) = true.

End Service.

(** ** A scripted service for concrete runs *)

Record Scripted : Type := {
  on_create : exn + Video.t;
  on_retrieve : list (exn + Video.t);
  on_retrieve_after : exn + Video.t;
  on_download : exn + Content;
  files : gmap string Content;
  dirs : gset string;
  clock : Q
}.

Definition scripted_retrieve (w : Scripted) : (exn + Video.t) * Scripted :=
  match on_retrieve w with
  | [] => (on_retrieve_after w, w)
  | r :: rs =>
      (r, {| on_create := on_create w; on_retrieve := rs;
             on_retrieve_after := on_retrieve_after w;
             on_download := on_download w; files := files w;
             dirs := dirs w; clock := clock w |})
  end.

Definition scripted_write (content : Content) (path : string) (w : Scripted)
  : (exn + unit) * Scripted :=
  (inr tt, {| on_create := on_create w; on_retrieve := on_retrieve w;
              on_retrieve_after := on_retrieve_after w;
              on_download := on_download w;
              files := <[path := content]> (files w);
              dirs := dirs w; clock := clock w |}).

Definition scripted_makedirs (path : string) (w : Scripted)
  : (exn + unit) * Scripted :=
  (inr tt, {| on_create := on_create w; on_retrieve := on_retrieve w;
              on_retrieve_after := on_retrieve_after w;
              on_download := on_download w; files := files w;
              dirs := {[ path ]} ∪ dirs w; clock := clock w |}).

Definition scripted_sleep (secs : Z) (w : Scripted) : Scripted :=
  {| on_create := on_create w; on_retrieve := on_retrieve w;
     on_retrieve_after := on_retrieve_after w;
     on_download := on_download w; files := files w;
     dirs := dirs w; clock := Qplus (clock w) (inject_Z secs) |}.

Definition scripted_getsize (path : string) (w : Scripted) : exn + Z :=
  match files w !! path with
  | Some content => inr (Z.of_nat (length content))
  | None => inl (Exn "FileNotFoundError" path)
  end.

(** The scripted constructor refuses a base URL whose port is not a
    number, as in [https://a:b/openai/v1/]. *)
Definition is_digit (c : ascii) : bool :=
  (Nat.leb 48 (nat_of_ascii c) && Nat.leb (nat_of_ascii c) 57)%bool.

Fixpoint port_is_bad (in_port : bool) (authority : string) : bool :=
  match authority with
  | EmptyString => false
  | String c rest =>
      if Ascii.eqb c "/" then false
      else if Ascii.eqb c ":" then port_is_bad true rest
      else if (in_port && negb (is_digit c))%bool then true
      else port_is_bad in_port rest
  end.

Definition scripted_openai (base_url : string) : option exn :=
  if port_is_bad false
       (String.substring 8 (String.length base_url - 8) base_url)
  then Some (Exn "InvalidURL" base_url)
  else None.

#[export] Instance scripted_world : Collaborators Scripted := {
  openai_raises _ base_url _ := scripted_openai base_url;
  videos_create _ _ _ _ _ w := (on_create w, w);
  videos_retrieve _ _ w := scripted_retrieve w;
  videos_download_content _ _ _ w := (on_download w, w);
  write_to_file := scripted_write;
  time_time := clock;
  time_sleep := scripted_sleep;
  os_path_exists path w := bool_decide (path ∈ dirs w);
  os_makedirs := scripted_makedirs;
  os_path_abspath path _ := "/home/user/" +:+ path;
  os_path_getsize := scripted_getsize
}.

Definition snapshot (id status : string) : Video.t :=
  Video.Build id status "sora-2" 1760000000 None None
    ("Video(id=" +:+ id +:+ ", status=" +:+ status +:+ ")").

Definition demo_environ : gmap string string :=
  {[ "AZURE_API_KEY" := "secret";
     "AZURE_RESOURCE_NAME" := "example.openai.azure.com" ]}.

Definition demo_dotenv : gmap string string :=
  {[ "AZURE_MODEL_NAME" := "sora-2"; "AZURE_API_KEY" := "ignored" ]}.

Definition demo_globals : Globals :=
  {| api_key := "secret";
     resource_name := "example.openai.azure.com";
     model_name := "sora-2";
     base_url := "https://example.openai.azure.com/openai/v1/";
     client := {| client_api_key := "secret";
                  client_base_url :=
                    "https://example.openai.azure.com/openai/v1/" |} |}.

Definition two_bytes : Content := [Byte.x00; Byte.x01].

(** create, then statuses queued, queued, completed; the download yields
    two bytes. *)
Definition happy_world : Scripted :=
  {| on_create := inr (snapshot "abc123" "queued");
     on_retrieve := [inr (snapshot "abc123" "queued");
                     inr (snapshot "abc123" "queued");
                     inr (snapshot "abc123" "completed")];
     on_retrieve_after := inr (snapshot "abc123" "completed");
     on_download := inr two_bytes;
     files := ∅; dirs := ∅; clock := 0 |}.

(** create, then statuses queued, failed. *)
Definition failing_world : Scripted :=
  {| on_create := inr (snapshot "abc123" "queued");
     on_retrieve := [inr (snapshot "abc123" "queued");
                     inr (snapshot "abc123" "failed")];
     on_retrieve_after := inr (snapshot "abc123" "failed");
     on_download := inl (Exn "NotFoundError" "no content");
     files := ∅; dirs := ∅; clock := 0 |}.

(** A service that answers "queued" for ever. *)
Definition stuck_world : Scripted :=
  {| on_create := inr (snapshot "abc123" "queued");
     on_retrieve := [];
     on_retrieve_after := inr (snapshot "abc123" "queued");
     on_download := inl (Exn "NotFoundError" "no content");
     files := ∅; dirs := ∅; clock := 0 |}.

(** A service whose retrieval breaks on the second call. *)
Definition flaky_world : Scripted :=
  {| on_create := inr (snapshot "abc123" "queued");
     on_retrieve := [inr (snapshot "abc123" "queued")];
     on_retrieve_after := inl (Exn "APIConnectionError" "Connection error.");
     on_download := inl (Exn "NotFoundError" "no content");
     files := ∅; dirs := ∅; clock := 0 |}.



(** ** Statements about whole runs *)

(** What the [except] clause of [main] prints for [e]. *)
Definition diagnostics (e : exn) : list event :=
  [EvPrint (nl +:+ "✗ Error: " +:+ exn_str e);
   EvPrint ("Error type: " +:+ exn_type e);
   EvPrint (nl +:+ "Troubleshooting:");
   EvPrint "  - Verify your API key is correct";
   EvPrint "  - Check that your Azure resource name is correct";
   EvPrint "  - Ensure your Azure subscription has access to Sora-2";
   EvPrint "  - Verify the prompt and parameters are valid"].


(** The number of times [main] is expected to enter the downloader,
    read off the outcome of the two stages before it. *)
Definition downloads_due {World : Type} `{!Collaborators World}
    (g : Globals) (fuel : nat) (w : World) : nat :=
  match result (generate_video g w) with
  | Ret video =>
      match result (wait_for_completion g fuel (Video.id video)
                      (final (generate_video g w))) with
      | Ret completed_video =>
          if String.eqb (Video.status completed_video) "completed"
          then 1%nat else 0%nat
      | _ => 0%nat
      end
  | _ => 0%nat
  end.

(** The order of one loop iteration as the specification words it:
    one retrieval, then one sleep of [poll_interval]. *)
Definition retrieves_then_sleeps (video_id : string) (evs : list event)
  : Prop :=
  timing evs = [EvRetrieve video_id; EvSleep poll_interval].



(** The three variables the module requires. *)
Definition required_variables : list string :=
  ["AZURE_API_KEY"; "AZURE_RESOURCE_NAME"; "AZURE_MODEL_NAME"].

(** ** Further observations *)

(** The events a run of the poller for [video_id] may perform: console
    output, its own entry, retrievals of that id and sleeps of
    [poll_interval]. *)
Definition poll_event (video_id : string) (e : event) : bool :=
  match e with
  | EvPrint _ => true
  | EvEnter f => String.eqb f "wait_for_completion"
  | EvRetrieve id => String.eqb id video_id
  | EvSleep secs => Z.eqb secs poll_interval
  | _ => false
  end.

(** Everything but console output and entry markers: what a run does to
    the service, the clock and the disk. *)
Definition is_effect (e : event) : bool :=
  match e with EvPrint _ | EvEnter _ => false | _ => true end.

Definition effects (evs : list event) : list event :=
  List.filter is_effect evs.

(** The effects of a downloader that meets no error, in order: the
    directory is made only when [present] is false. *)
Definition download_plan (present : bool) (video_id : string) : list event :=
  (if present then [] else [EvMakedirs output_dir]) ++
  [EvDownloadContent video_id "video";
   EvWriteToFile (os_path_join output_dir (video_id +:+ ".mp4"))].

(** The world in which the downloader calls the service: the one it was
    started in, or the one [os.makedirs] left. *)
Definition after_makedirs {World : Type} `{!Collaborators World}
    (w : World) : World :=
  if os_path_exists output_dir w then w else snd (os_makedirs output_dir w).

(** The two closing banners of [main]. *)
Definition is_verdict (e : event) : bool :=
  match e with
  | EvPrint s => String.prefix "PIPELINE " s
  | _ => false
  end.

(** The banner a run of [main] owes, read off the outcome of its
    stages. *)
Definition verdict_due {World : Type} `{!Collaborators World}
    (g : Globals) (fuel : nat) (w : World) : list event :=
  match result (generate_video g w) with
  | Ret video =>
      let polled :=
        wait_for_completion g fuel (Video.id video)
          (final (generate_video g w)) in
      match result polled with
      | Ret completed_video =>
          if String.eqb (Video.status completed_video) "completed" then
            match result (download_video g (Video.id video) (final polled)) with
            | Ret _ => [EvPrint "PIPELINE COMPLETE"]
            | _ => []
            end
          else [EvPrint "PIPELINE FAILED"]
      | _ => []
      end
  | _ => []
  end.

(** The closing lines of [main] after a download, and after a poll that
    did not end on "completed". *)
Definition complete_banner (video_id output_path : string) : list event :=
  [EvPrint (nl +:+ str_mul "=" 60);
   EvPrint "PIPELINE COMPLETE";
   EvPrint (str_mul "=" 60);
   EvPrint ("Video ID: " +:+ video_id);
   EvPrint ("Saved to: " +:+ output_path)].

Definition failed_banner (completed_video : Video.t) : list event :=
  [EvPrint (nl +:+ str_mul "=" 60);
   EvPrint "PIPELINE FAILED";
   EvPrint (str_mul "=" 60);
   EvPrint "Video generation did not complete successfully.";
   EvPrint ("Final status: " +:+ Video.status completed_video);
   EvPrint (nl +:+ "Common failure reasons:");
   EvPrint "  - Copyrighted characters (Elmo, Mickey Mouse, etc.)";
   EvPrint "  - Real celebrities or public figures";
   EvPrint "  - Violent or inappropriate content";
   EvPrint "  - Trademarked content"].

(** A printed number with its thousands separators taken out. *)
Definition not_comma (c : ascii) : bool := negb (Ascii.eqb c ",").

Definition strip_commas (s : string) : string :=
  string_of_list_ascii (List.filter not_comma (list_ascii_of_string s)).

(** A disk on which no directory exists and none can be made; the
    service answers every request with an error. *)
Definition read_only_disk : Collaborators unit := {|
  openai_raises _ _ _ := None;
  videos_create _ _ _ _ _ w := (inl (Exn "APIConnectionError" "offline"), w);
  videos_retrieve _ _ w := (inl (Exn "APIConnectionError" "offline"), w);
  videos_download_content _ _ _ w :=
    (inl (Exn "APIConnectionError" "offline"), w);
  write_to_file _ path w := (inl (Exn "PermissionError" path), w);
  time_time _ := 0%Q;
  time_sleep _ w := w;
  os_path_exists _ _ := false;
  os_makedirs path w := (inl (Exn "PermissionError" path), w);
  os_path_abspath path _ := path;
  os_path_getsize path _ := inl (Exn "FileNotFoundError" path)
|}.

(** An environment whose resource name does not give a URL. *)
Definition bad_port_environ : gmap string string :=
  {[ "AZURE_API_KEY" := "secret";
     "AZURE_RESOURCE_NAME" := "a:b";
     "AZURE_MODEL_NAME" := "sora-2" ]}.

(** An environment in which the key is set but empty. *)
Definition blank_environ : gmap string string :=
  {[ "AZURE_API_KEY" := "";
     "AZURE_RESOURCE_NAME" := "example.openai.azure.com";
     "AZURE_MODEL_NAME" := "sora-2" ]}.

(** * Properties *)

Arguments str_mul : simpl never.
Arguments String.append : simpl never.
Arguments pretty : simpl never.
Arguments py_int : simpl never.

(** ** Runs of composed programs *)

Section RunFacts.
Context {W A B : Type}.
Implicit Types (m : M W A) (k : A -> M W B) (w : W).

Lemma result_bind m k w :
  result (bind m k w) =
  match result (m w) with
  | Ret a => result (k a (final (m w)))
  | Raise e => Raise e
  | OutOfFuel => OutOfFuel
  end.
Proof. unfold bind. destruct (result (m w)); reflexivity. Qed.

Lemma events_bind m k w :
  events (bind m k w) =
  events (m w) ++
  match result (m w) with
  | Ret a => events (k a (final (m w)))
  | _ => []
  end.
Proof.
  unfold bind. destruct (result (m w)); cbn; rewrite ?app_nil_r; reflexivity.
Qed.

Lemma final_bind m k w :
  final (bind m k w) =
  match result (m w) with
  | Ret a => final (k a (final (m w)))
  | _ => final (m w)
  end.
Proof. unfold bind. destruct (result (m w)); reflexivity. Qed.

Lemma bind_Ret m k w a :
  result (m w) = Ret a ->
  bind m k w =
  Run (events (m w) ++ events (k a (final (m w))))
      (result (k a (final (m w)))) (final (k a (final (m w)))).
Proof. intros E. unfold bind. rewrite E. reflexivity. Qed.

Lemma bind_Raise m k w e :
  result (m w) = Raise e ->
  bind m k w = Run (events (m w)) (Raise e) (final (m w)).
Proof. intros E. unfold bind. rewrite E. reflexivity. Qed.

Lemma bind_OutOfFuel m k w :
  result (m w) = OutOfFuel ->
  bind m k w = Run (events (m w)) OutOfFuel (final (m w)).
Proof. intros E. unfold bind. rewrite E. reflexivity. Qed.

End RunFacts.

Lemma notes_filter (p : event -> bool) evs :
  (forall e, is_note e = true -> p e = false) ->
  notes evs -> List.filter p evs = [].
Proof.
  intros Hp Hn. induction Hn as [|e evs He _ IH]; cbn.
  - reflexivity.
  - rewrite (Hp e He). exact IH.
Qed.

Lemma notes_timing evs : notes evs -> timing evs = [].
Proof.
  apply notes_filter. intros [] He; cbn in *; congruence.
Qed.

Lemma timing_app evs1 evs2 : timing (evs1 ++ evs2) = timing evs1 ++ timing evs2.
Proof. apply List.filter_app. Qed.

Lemma retrievals_timing evs : retrievals (timing evs) = retrievals evs.
Proof.
  unfold retrievals, timing. induction evs as [|e evs IH]; cbn.
  - reflexivity.
  - destruct e; cbn; rewrite ?IH; reflexivity.
Qed.

Lemma sleeps_timing evs : sleeps (timing evs) = sleeps evs.
Proof.
  unfold sleeps, timing. induction evs as [|e evs IH]; cbn.
  - reflexivity.
  - destruct e; cbn; rewrite ?IH; reflexivity.
Qed.

Lemma retrievals_rounds video_id n : retrievals (rounds video_id n) = n.
Proof.
  unfold retrievals. induction n as [|n IH]; cbn; [reflexivity|].
  f_equal. exact IH.
Qed.

Lemma sleeps_rounds video_id n : sleeps (rounds video_id n) = n.
Proof.
  unfold sleeps. induction n as [|n IH]; cbn; [reflexivity|].
  f_equal. exact IH.
Qed.

(** ** The polling loop *)

Section PollerFacts.
Context {World : Type} `{!Collaborators World}.
Variable g : Globals.

Lemma poll_once_run video_id start_time video w :
  let next := videos_retrieve (client g) video_id
                (time_sleep poll_interval w) in
  poll_once g video_id start_time video w =
  Run [EvPrint ("Status: " +:+ Video.status video +:+ " | Elapsed: " +:+
                pretty (py_int (Qminus (time_time w) start_time)) +:+
                " seconds | Waiting " +:+ pretty poll_interval +:+ "s...");
       EvSleep poll_interval; EvRetrieve video_id]
      (match fst next with inl e => Raise e | inr v => Ret v end)
      (snd next).
Proof. reflexivity. Qed.

Lemma poll_while_terminal fuel video_id start_time video w :
  is_terminal (Video.status video) = true ->
  poll_while g fuel video_id start_time video w = Run [] (Ret video) w.
Proof. intros Ht. destruct fuel; cbn [poll_while]; rewrite Ht; reflexivity. Qed.

Lemma poll_while_pending fuel video_id start_time video w :
  is_terminal (Video.status video) = false ->
  poll_while g (S fuel) video_id start_time video w =
  bind (poll_once g video_id start_time video)
       (poll_while g fuel video_id start_time) w.
Proof. intros Ht. cbn [poll_while]. rewrite Ht. reflexivity. Qed.

Lemma poll_while_starved video_id start_time video w :
  is_terminal (Video.status video) = false ->
  poll_while g 0 video_id start_time video w = Run [] OutOfFuel w.
Proof. intros Ht. cbn [poll_while]. rewrite Ht. reflexivity. Qed.

(** The loop, started after the [k]-th retrieval has answered [video],
    read off the replies of the service. *)
Lemma poll_while_replies video_id start_time w0 fuel :
  forall k video,
    reply g k video_id w0 = inr video ->
    let r := poll_while g fuel video_id start_time video
               (snd (poll_run g k video_id w0)) in
    exists n,
      (n <= fuel)%nat /\
      timing (events r) = rounds video_id n /\
      (forall j, (k <= j < k + n)%nat -> pending_at g video_id w0 j) /\
      final r = snd (poll_run g (k + n) video_id w0) /\
      match result r with
      | Ret v => reply g (k + n) video_id w0 = inr v /\
                 is_terminal (Video.status v) = true
      | Raise e => reply g (k + n) video_id w0 = inl e
      | OutOfFuel => n = fuel /\ pending_at g video_id w0 (k + n)
      end.
Proof.
  induction fuel as [|fuel IH]; intros k video Hk r.
  - exists 0%nat. subst r. rewrite Nat.add_0_r.
    destruct (is_terminal (Video.status video)) eqn:Ht.
    + rewrite poll_while_terminal by exact Ht. cbn.
      repeat split; auto. intros j Hj. lia.
    + rewrite poll_while_starved by exact Ht. cbn.
      repeat split; auto; [intros j Hj; lia|]. exists video. auto.
  - destruct (is_terminal (Video.status video)) eqn:Ht.
    + exists 0%nat. subst r. rewrite Nat.add_0_r.
      rewrite poll_while_terminal by exact Ht. cbn.
      repeat split; auto; [lia | intros j Hj; lia].
    + subst r. rewrite poll_while_pending by exact Ht.
      pose proof (poll_once_run video_id start_time video
                    (snd (poll_run g k video_id w0))) as Hrun.
      cbn zeta in Hrun.
      change (videos_retrieve (client g) video_id
                (time_sleep poll_interval (snd (poll_run g k video_id w0))))
        with (poll_run g (S k) video_id w0) in Hrun.
      destruct (fst (poll_run g (S k) video_id w0)) as [e|v'] eqn:Hnext.
      * exists 1%nat.
        rewrite (bind_Raise _ _ _ e) by (rewrite Hrun; reflexivity).
        rewrite Hrun. cbn. rewrite Nat.add_1_r.
        repeat split; auto; [lia|].
        intros j Hj. assert (j = k) by lia. subst j. exists video. auto.
      * destruct (IH (S k) v' Hnext) as (n & Hn & Htim & Hpend & Hfin & Hres).
        exists (S n).
        rewrite (bind_Ret _ _ _ v') by (rewrite Hrun; reflexivity).
        rewrite Hrun. cbn [events result final].
        replace (k + S n)%nat with (S k + n)%nat by lia.
        repeat split.
        -- lia.
        -- rewrite timing_app, Htim. reflexivity.
        -- intros j Hj. destruct (Nat.eq_dec j k) as [->|Hne].
           ++ exists video. auto.
           ++ apply Hpend. lia.
        -- exact Hfin.
        -- destruct (result (poll_while g fuel video_id start_time v'
                               (snd (poll_run g (S k) video_id w0)))).
           ++ exact Hres.
           ++ exact Hres.
           ++ destruct Hres as [-> Hp]. split; [reflexivity | exact Hp].
Qed.

End PollerFacts.

Section WaitFacts.
Context {World : Type} `{!Collaborators World}.
Variable g : Globals.

Lemma print_if_truthy_run label a (w : World) :
  print_if_truthy label a w =
  Run (match a with
       | Some v => if truthy v then [EvPrint (label +:+ py_str v)] else []
       | None => []
       end) (Ret tt) w.
Proof.
  unfold print_if_truthy. destruct a as [v|]; [|reflexivity].
  destruct (truthy v); reflexivity.
Qed.

(** The closing report only prints. *)
Lemma report_outcome_run start_time video (w : World) :
  result (report_outcome start_time video w) = Ret tt /\
  final (report_outcome start_time video w) = w /\
  notes (events (report_outcome start_time video w)).
Proof.
  unfold report_outcome, print_if_truthy.
  destruct (String.eqb (Video.status video) "completed"),
    (Video.error video) as [v1|], (Video.failure_reason video) as [v2|];
    try destruct (truthy v1); try destruct (truthy v2);
    cbn; repeat split; repeat constructor.
Qed.

(** The poller up to its first retrieval. *)
Lemma wait_for_completion_unfold fuel video_id (w : World) :
  let rest :=
    bind (retrieve g video_id)
         (fun v0 =>
            bind (print ("Initial status: " +:+ Video.status v0))
                 (fun _ =>
                    bind (poll_while g fuel video_id (time_time w) v0)
                         (fun v =>
                            bind (report_outcome (time_time w) v)
                                 (fun _ => ret v)))) w in
  wait_for_completion g fuel video_id w =
  Run (announce_wait video_id ++ events rest) (result rest) (final rest).
Proof. reflexivity. Qed.

Lemma wait_for_completion_first_raise fuel video_id (w : World) e :
  reply g 0 video_id w = inl e ->
  wait_for_completion g fuel video_id w =
  Run (announce_wait video_id ++ [EvRetrieve video_id]) (Raise e)
      (snd (poll_run g 0 video_id w)).
Proof.
  intros H0. rewrite wait_for_completion_unfold. cbn zeta.
  unfold reply in H0. cbn [poll_run] in *.
  rewrite (bind_Raise _ _ _ e).
  - reflexivity.
  - unfold retrieve, call. cbn [result]. rewrite H0. reflexivity.
Qed.

Lemma wait_for_completion_first_ret fuel video_id (w : World) v0 :
  reply g 0 video_id w = inr v0 ->
  let r' := poll_while g fuel video_id (time_time w) v0
              (snd (poll_run g 0 video_id w)) in
  result (wait_for_completion g fuel video_id w) = result r' /\
  final (wait_for_completion g fuel video_id w) = final r' /\
  exists after,
    events (wait_for_completion g fuel video_id w) =
    announce_wait video_id ++
    EvRetrieve video_id ::
    EvPrint ("Initial status: " +:+ Video.status v0) ::
    events r' ++ after /\
    notes after.
Proof.
  intros H0 r'. rewrite wait_for_completion_unfold. cbn zeta.
  unfold reply in H0. cbn [poll_run] in *.
  rewrite (bind_Ret _ _ _ v0)
    by (unfold retrieve, call; cbn [result]; rewrite H0; reflexivity).
  cbn [events result final retrieve call].
  rewrite (bind_Ret _ _ _ tt) by reflexivity.
  cbn [events result final print].
  fold r'.
  destruct (result r') as [v| e |] eqn:Hres.
  - rewrite (bind_Ret _ _ _ v) by exact Hres.
    destruct (report_outcome_run (time_time w) v (final r'))
      as (Hr & Hf & Hn).
    rewrite (bind_Ret _ _ _ tt) by exact Hr.
    cbn [events result final ret]. fold r'. rewrite Hf.
    repeat split.
    exists (events (report_outcome (time_time w) v (final r'))).
    rewrite app_nil_r. split; [reflexivity | exact Hn].
  - rewrite (bind_Raise _ _ _ e) by exact Hres.
    cbn [events result final]. fold r'. repeat split.
    exists []. rewrite app_nil_r. split; [reflexivity | constructor].
  - rewrite (bind_OutOfFuel _ _ _) by exact Hres.
    cbn [events result final]. fold r'. repeat split.
    exists []. rewrite app_nil_r. split; [reflexivity | constructor].
Qed.

End WaitFacts.

Lemma is_terminal_In status :
  is_terminal status = true <-> In status terminal_statuses.
Proof.
  unfold is_terminal, py_in. rewrite existsb_exists. split.
  - intros (x & Hin & Heq). apply String.eqb_eq in Heq. subst x. exact Hin.
  - intros Hin. exists status. split; [exact Hin | apply String.eqb_refl].
Qed.

Section PollerReplies.
Context {World : Type} `{!Collaborators World}.
Variable g : Globals.

Lemma timing_cons_retrieve video_id evs :
  timing (EvRetrieve video_id :: evs) = EvRetrieve video_id :: timing evs.
Proof. reflexivity. Qed.

Lemma timing_cons_print s evs : timing (EvPrint s :: evs) = timing evs.
Proof. reflexivity. Qed.

(** A run of the poller, read off the replies of the service: it
    performs the first retrieval, then [n] rounds, where the replies
    before the [n]-th are pending and the [n]-th decides the outcome. *)
Lemma wait_for_completion_replies fuel video_id (w : World) :
  let r := wait_for_completion g fuel video_id w in
  exists n,
    (n <= fuel)%nat /\
    timing (events r) = EvRetrieve video_id :: rounds video_id n /\
    pending_until g n video_id w /\
    final r = snd (poll_run g n video_id w) /\
    match result r with
    | Ret v => reply g n video_id w = inr v /\
               is_terminal (Video.status v) = true
    | Raise e => reply g n video_id w = inl e
    | OutOfFuel => n = fuel /\ pending_at g video_id w n
    end.
Proof.
  intros r. subst r.
  destruct (reply g 0 video_id w) as [e|v0] eqn:H0.
  - exists 0%nat.
    rewrite (wait_for_completion_first_raise g fuel video_id w e H0).
    cbn [events result final]. rewrite timing_app.
    repeat split; auto; [lia|]. intros j Hj. lia.
  - destruct (wait_for_completion_first_ret g fuel video_id w v0 H0)
      as (Hres & Hfin & after & Hev & Hafter).
    destruct (poll_while_replies g video_id (time_time w) w fuel 0%nat v0 H0)
      as (n & Hn & Htim & Hpend & Hfin' & Hout).
    cbn [Nat.add] in *.
    exists n. rewrite Hres, Hfin, Hev.
    rewrite timing_app, timing_cons_retrieve, timing_cons_print, timing_app.
    rewrite Htim, (notes_timing after Hafter), app_nil_r.
    repeat split; auto.
    intros j Hj. apply Hpend. lia.
Qed.

Lemma pending_not_terminal video_id (w : World) j v :
  pending_at g video_id w j ->
  reply g j video_id w = inr v ->
  is_terminal (Video.status v) = true -> False.
Proof.
  intros (vj & Hj & Hp) Hr Ht. rewrite Hr in Hj.
  injection Hj as ->. congruence.
Qed.

Lemma pending_not_raise video_id (w : World) j e :
  pending_at g video_id w j -> reply g j video_id w = inl e -> False.
Proof. intros (vj & Hj & _) Hr. congruence. Qed.

(** Enough fuel reaches the first terminal reply. *)
Lemma wait_for_completion_reaches n v video_id (w : World) fuel :
  first_terminal g n v video_id w -> (n <= fuel)%nat ->
  result (wait_for_completion g fuel video_id w) = Ret v.
Proof.
  intros (Hpend & Hn & Ht) Hle.
  destruct (wait_for_completion_replies fuel video_id w)
    as (n' & Hn' & _ & Hpend' & _ & Hout).
  assert (Hnn : (n' < n \/ n' = n \/ n < n')%nat) by lia.
  destruct Hnn as [Hlt | [-> | Hgt]].
  - specialize (Hpend n' Hlt).
    destruct (result (wait_for_completion g fuel video_id w)) as [v'|e|].
    + destruct Hout as [Hr Ht']. destruct (pending_not_terminal _ _ _ _ Hpend Hr Ht').
    + destruct (pending_not_raise _ _ _ _ Hpend Hout).
    + lia.
  - destruct (result (wait_for_completion g fuel video_id w)) as [v'|e|].
    + destruct Hout as [Hr _]. congruence.
    + congruence.
    + destruct Hout as [_ Hp]. destruct (pending_not_terminal _ _ _ _ Hp Hn Ht).
  - destruct (pending_not_terminal _ _ _ _ (Hpend' n Hgt) Hn Ht).
Qed.

End PollerReplies.

(** ** The poller: what it returns, in which order it acts, when it stops *)

Section PollerClaims.
Context {World : Type} `{!Collaborators World}.
Variable g : Globals.

(** C1. Whenever [wait_for_completion] returns a job snapshot, the
    status of that snapshot is one of "completed", "failed" and
    "cancelled"; the snapshot is the very reply of the service to the
    last retrieval of the run, with whatever fields were attached. *)
Theorem wait_for_completion_returns_terminal
    fuel video_id (w : World) v :
  result (wait_for_completion g fuel video_id w) = Ret v ->
  In (Video.status v) ["completed"; "failed"; "cancelled"] /\
  exists n, (n <= fuel)%nat /\ reply g n video_id w = inr v.
Proof.
  intros Hret.
  destruct (wait_for_completion_replies g fuel video_id w)
    as (n & Hn & _ & _ & _ & Hout).
  rewrite Hret in Hout. destruct Hout as [Hr Ht].
  split.
  - apply is_terminal_In. exact Ht.
  - exists n. split; assumption.
Qed.

(** C3, as the code has it. At the head of the loop, either the status
    is terminal and the loop is over without any event, or the body
    runs: it sleeps [poll_interval] = 10 seconds once and then
    retrieves once, in this order, and the loop goes on from the new
    snapshot. A whole run is the first retrieval followed by such
    rounds. *)
Theorem iteration_sleeps_then_retrieves
    fuel video_id start_time video (w : World) :
  (if is_terminal (Video.status video)
   then poll_while g fuel video_id start_time video w = Run [] (Ret video) w
   else
     timing (events (poll_once g video_id start_time video w)) =
       [EvSleep 10; EvRetrieve video_id] /\
     poll_while g (S fuel) video_id start_time video w =
       bind (poll_once g video_id start_time video)
            (poll_while g fuel video_id start_time) w) /\
  exists n, (n <= fuel)%nat /\
    timing (events (wait_for_completion g fuel video_id w)) =
      EvRetrieve video_id :: rounds video_id n.
Proof.
  split.
  - destruct (is_terminal (Video.status video)) eqn:Ht.
    + apply poll_while_terminal. exact Ht.
    + split.
      * rewrite poll_once_run. reflexivity.
      * apply poll_while_pending. exact Ht.
  - destruct (wait_for_completion_replies g fuel video_id w)
      as (n & Hn & Htim & _).
    exists n. split; assumption.
Qed.

(** C4. In every run of the poller, whatever the service answers and
    however long the run lasts, a retrieval takes place, and nothing
    but console output comes before it: no sleep and no other remote
    call. *)
Theorem first_retrieval_before_any_sleep fuel video_id (w : World) :
  exists before after,
    events (wait_for_completion g fuel video_id w) =
      before ++ EvRetrieve video_id :: after /\
    Forall (fun e => is_sleep e = false /\ is_remote e = false) before.
Proof.
  exists (announce_wait video_id).
  destruct (reply g 0 video_id w) as [e|v0] eqn:H0.
  - exists [].
    rewrite (wait_for_completion_first_raise g fuel video_id w e H0).
    split; [reflexivity | repeat constructor].
  - destruct (wait_for_completion_first_ret g fuel video_id w v0 H0)
      as (_ & _ & after & Hev & _).
    eexists. split; [exact Hev | repeat constructor].
Qed.

(** C5. The poller returns exactly when some retrieval answers with a
    terminal status: once the [n]-th reply is the first terminal one,
    every run that is given time for [n] rounds returns it, and a run
    that returns has met such a reply. No count and no clock ends the
    loop: against a service whose every reply is a non-terminal
    snapshot, the run is still polling after any number of rounds, and
    it has then made that many sleeps and one more retrieval. *)
Theorem polling_has_no_bound video_id (w : World) :
  (forall n v fuel,
      first_terminal g n v video_id w -> (n <= fuel)%nat ->
      result (wait_for_completion g fuel video_id w) = Ret v) /\
  (forall fuel v,
      result (wait_for_completion g fuel video_id w) = Ret v ->
      exists n, (n <= fuel)%nat /\ first_terminal g n v video_id w) /\
  ((forall j, pending_at g video_id w j) ->
   forall fuel,
     result (wait_for_completion g fuel video_id w) = OutOfFuel /\
     retrievals (events (wait_for_completion g fuel video_id w)) = S fuel /\
     sleeps (events (wait_for_completion g fuel video_id w)) = fuel).
Proof.
  split; [|split].
  - intros n v fuel Hfirst Hle.
    exact (wait_for_completion_reaches g n v video_id w fuel Hfirst Hle).
  - intros fuel v Hret.
    destruct (wait_for_completion_replies g fuel video_id w)
      as (n & Hn & _ & Hpend & _ & Hout).
    rewrite Hret in Hout. destruct Hout as [Hr Ht].
    exists n. split; [exact Hn|]. split; [exact Hpend|]. split; assumption.
  - intros Hall fuel.
    destruct (wait_for_completion_replies g fuel video_id w)
      as (n & Hn & Htim & _ & _ & Hout).
    rewrite <- retrievals_timing, <- sleeps_timing, Htim.
    destruct (result (wait_for_completion g fuel video_id w)) as [v|e|].
    + destruct Hout as [Hr Ht].
      destruct (pending_not_terminal g _ _ _ _ (Hall n) Hr Ht).
    + destruct (pending_not_raise g _ _ _ _ (Hall n) Hout).
    + destruct Hout as [-> _]. split; [reflexivity|].
      change (retrievals (EvRetrieve video_id :: rounds video_id fuel))
        with (S (retrievals (rounds video_id fuel))).
      change (sleeps (EvRetrieve video_id :: rounds video_id fuel))
        with (sleeps (rounds video_id fuel)).
      rewrite retrievals_rounds, sleeps_rounds. split; reflexivity.
Qed.

(** C10. A run of the poller that comes to an end, by returning or by
    raising, has made exactly one retrieval more than it has slept;
    when the first reply is already terminal, the run returns it after
    one retrieval and no sleep. *)
Theorem retrievals_exceed_sleeps_by_one fuel video_id (w : World) :
  result (wait_for_completion g fuel video_id w) <> OutOfFuel ->
  retrievals (events (wait_for_completion g fuel video_id w)) =
    S (sleeps (events (wait_for_completion g fuel video_id w))) /\
  (forall v0,
      reply g 0 video_id w = inr v0 ->
      is_terminal (Video.status v0) = true ->
      result (wait_for_completion g fuel video_id w) = Ret v0 /\
      retrievals (events (wait_for_completion g fuel video_id w)) = 1%nat /\
      sleeps (events (wait_for_completion g fuel video_id w)) = 0%nat).
Proof.
  intros _.
  destruct (wait_for_completion_replies g fuel video_id w)
    as (n & Hn & Htim & Hpend & _ & Hout).
  rewrite <- retrievals_timing, <- sleeps_timing, Htim.
  change (retrievals (EvRetrieve video_id :: rounds video_id n))
    with (S (retrievals (rounds video_id n))).
  change (sleeps (EvRetrieve video_id :: rounds video_id n))
    with (sleeps (rounds video_id n)).
  rewrite retrievals_rounds, sleeps_rounds.
  split; [reflexivity|].
  intros v0 H0 Ht.
  destruct n as [|n].
  - split; [|split; reflexivity].
    apply (wait_for_completion_reaches g 0 v0 video_id w fuel); [|lia].
    split; [intros j Hj; lia | split; assumption].
  - destruct (pending_not_terminal g _ _ _ _ (Hpend 0%nat ltac:(lia)) H0 Ht).
Qed.

End PollerClaims.

(** ** Counting entries into the script's functions *)

Lemma calls_app f evs1 evs2 :
  calls f (evs1 ++ evs2) = (calls f evs1 + calls f evs2)%nat.
Proof. unfold calls. rewrite List.filter_app, length_app. reflexivity. Qed.

Lemma calls_notes f evs : notes evs -> calls f evs = 0%nat.
Proof.
  intros Hn. unfold calls. rewrite notes_filter; [reflexivity | | exact Hn].
  intros [] He; cbn in *; congruence.
Qed.

Lemma calls_In f evs : In (EvEnter f) evs <-> calls f evs <> 0%nat.
Proof.
  unfold calls. induction evs as [|e evs IH]; cbn.
  - split; [tauto | congruence].
  - destruct (is_enter f e) eqn:He; cbn.
    + split; [congruence |]. intros _. left.
      destruct e; cbn in He; try discriminate.
      apply String.eqb_eq in He. congruence.
    + rewrite <- IH. split; [|tauto].
      intros [->|Hin]; [|exact Hin].
      cbn in He. rewrite String.eqb_refl in He. discriminate.
Qed.

(** Runs a program up to the next answer of the world. *)
Ltac run_steps :=
  repeat (progress
            (rewrite ?result_bind, ?events_bind, ?final_bind;
             cbn [call enter print peek peek_or_raise ret raise sleep
                  retrieve result events final app negb])).

(** Splits a run on the answers of the world it is stuck on. *)
Ltac run_cases :=
  run_steps;
  repeat (match goal with
          | |- context [match ?x with _ => _ end] => destruct x eqn:?
          | |- context [if ?x then _ else _] => destruct x eqn:?
          end; run_steps).

Section StageFacts.
Context {World : Type} `{!Collaborators World}.
Variable g : Globals.

Lemma poll_while_no_enter f fuel video_id start_time :
  forall video (w : World),
    calls f (events (poll_while g fuel video_id start_time video w)) = 0%nat.
Proof.
  induction fuel as [|fuel IH]; intros video w.
  - destruct (is_terminal (Video.status video)) eqn:Ht.
    + rewrite poll_while_terminal by exact Ht. reflexivity.
    + rewrite poll_while_starved by exact Ht. reflexivity.
  - destruct (is_terminal (Video.status video)) eqn:Ht.
    + rewrite poll_while_terminal by exact Ht. reflexivity.
    + rewrite poll_while_pending by exact Ht.
      rewrite events_bind, calls_app, poll_once_run.
      cbn [events result final].
      destruct (fst (videos_retrieve (client g) video_id
                       (time_sleep poll_interval w))); cbn [calls];
        rewrite ?IH; reflexivity.
Qed.

Lemma wait_for_completion_calls fuel video_id (w : World) :
  calls "download_video"
    (events (wait_for_completion g fuel video_id w)) = 0%nat.
Proof.
  destruct (reply g 0 video_id w) as [e|v0] eqn:H0.
  - rewrite (wait_for_completion_first_raise g fuel video_id w e H0).
    reflexivity.
  - destruct (wait_for_completion_first_ret g fuel video_id w v0 H0)
      as (_ & _ & after & Hev & Hafter).
    rewrite Hev, calls_app.
    change (calls "download_video" (?a :: ?b :: ?l))
      with (calls "download_video" l).
    rewrite calls_app, poll_while_no_enter, (calls_notes _ after Hafter).
    reflexivity.
Qed.

(** The submitter hands on what the creation call answered. *)
Lemma generate_video_run (w : World) :
  let answer :=
    videos_create (client g) (model_name g) prompt size seconds w in
  result (generate_video g w) =
    match fst answer with inl e => Raise e | inr v => Ret v end /\
  final (generate_video g w) = snd answer /\
  List.filter is_remote (events (generate_video g w)) =
    [EvCreate (model_name g) prompt size seconds] /\
  calls "download_video" (events (generate_video g w)) = 0%nat.
Proof.
  intros answer. unfold generate_video. run_steps. fold answer.
  destruct (fst answer); repeat split.
Qed.

Lemma download_video_calls video_id (w : World) :
  calls "download_video" (events (download_video g video_id w)) = 1%nat.
Proof. unfold download_video. run_cases; reflexivity. Qed.

Lemma main_except_run e (w : World) :
  result (main_except e w) = Ret tt /\
  final (main_except e w) = w /\
  notes (events (main_except e w)).
Proof. cbn. repeat split. repeat constructor. Qed.

End StageFacts.

Section TryFacts.
Context {W A : Type}.
Implicit Types (m : M W A) (h : exn -> M W A) (w : W).


Lemma events_try m h w :
  events (try_except m h w) =
  events (m w) ++
  match result (m w) with
  | Raise e => if is_exception e then events (h e (final (m w))) else []
  | _ => []
  end.
Proof.
  unfold try_except.
  destruct (result (m w)) as [a|e|]; cbn; rewrite ?app_nil_r;
    try reflexivity.
  destruct (is_exception e); cbn; rewrite ?app_nil_r; reflexivity.
Qed.

End TryFacts.

(** ** The orchestrator *)

Section MainFacts.
Context {World : Type} `{!Collaborators World}.
Variable g : Globals.

Lemma main_try_calls fuel (w : World) :
  calls "download_video" (events (main_try g fuel w)) =
  downloads_due g fuel w.
Proof.
  unfold main_try, downloads_due.
  destruct (generate_video_run g w) as (_ & _ & _ & Hgen).
  rewrite events_bind, calls_app, Hgen.
  destruct (result (generate_video g w)) as [video|e|]; [|reflexivity..].
  rewrite events_bind, calls_app, wait_for_completion_calls.
  destruct (result (wait_for_completion g fuel (Video.id video)
                      (final (generate_video g w))))
    as [completed_video|e|]; [|reflexivity..].
  destruct (String.eqb (Video.status completed_video) "completed").
  - rewrite events_bind, calls_app, download_video_calls.
    destruct (result (download_video g (Video.id video) _));
      reflexivity.
  - reflexivity.
Qed.

Lemma main_calls fuel (w : World) :
  calls "download_video" (events (main g fuel w)) = downloads_due g fuel w.
Proof.
  unfold main. rewrite events_bind. cbn [enter result events final].
  rewrite calls_app, events_try, calls_app, main_try_calls.
  destruct (result (main_try g fuel w)) as [u|e|];
    [| destruct (is_exception e) |];
    rewrite ?(calls_notes _ _ (proj2 (proj2 (main_except_run e _))));
    cbn; lia.
Qed.



End MainFacts.

Section MainClaims.
Context {World : Type} `{!Collaborators World}.
Variable g : Globals.

(** C2. In a run of [main], [download_video] is entered exactly when
    the poller has returned a snapshot whose status is "completed",
    and then once; after a poll that ended on "failed" or "cancelled"
    it is not entered at all. *)
Theorem download_iff_completed fuel (w : World) :
  calls "download_video" (events (main g fuel w)) = downloads_due g fuel w /\
  (In (EvEnter "download_video") (events (main g fuel w)) <->
   exists video completed_video,
     result (generate_video g w) = Ret video /\
     result (wait_for_completion g fuel (Video.id video)
               (final (generate_video g w))) = Ret completed_video /\
     Video.status completed_video = "completed") /\
  (forall video completed_video,
      result (generate_video g w) = Ret video ->
      result (wait_for_completion g fuel (Video.id video)
                (final (generate_video g w))) = Ret completed_video ->
      Video.status completed_video = "failed" \/
      Video.status completed_video = "cancelled" ->
      ~ In (EvEnter "download_video") (events (main g fuel w))).
Proof.
  split; [apply main_calls|]. split.
  - rewrite calls_In, main_calls. unfold downloads_due. split.
    + destruct (result (generate_video g w)) as [video|e|] eqn:Hgen;
        [|congruence..].
      destruct (result (wait_for_completion g fuel (Video.id video) _))
        as [cv|e|] eqn:Hpoll; [|congruence..].
      destruct (String.eqb (Video.status cv) "completed") eqn:Hc;
        [|congruence].
      intros _. exists video, cv. apply String.eqb_eq in Hc. auto.
    + intros (video & cv & -> & -> & ->). cbn. congruence.
  - intros video cv Hgen Hpoll Hst.
    rewrite calls_In, main_calls. unfold downloads_due.
    rewrite Hgen, Hpoll.
    destruct Hst as [-> | ->]; cbn; congruence.
Qed.



End MainClaims.

(** C6. When one of the three required variables is set neither in the
    process environment nor in the [.env] file, the script raises the
    [ValueError] of the module level and that is all it does: no event
    of any kind is performed, so no remote call, and the world is left
    as it was. *)
Theorem missing_configuration_raises_first
    {World : Type} `{!Collaborators World}
    (environ dotenv : gmap string string) (name : string) (fuel : nat)
    (w : World) :
  In name required_variables ->
  os_getenv (load_dotenv environ dotenv) name = None ->
  script environ dotenv fuel w = Run [] (Raise missing_variables) w.
Proof.
  intros Hin Hnone.
  assert (Hinit : module_init environ dotenv w = inl missing_variables).
  { unfold module_init. cbn zeta.
    destruct Hin as [<- | [<- | [<- | []]]]; rewrite Hnone; cbn [py_not];
      rewrite ?orb_true_r; reflexivity. }
  unfold script. rewrite Hinit. reflexivity.
Qed.

(** ** The downloader's path *)

(** For an id that does not begin with a slash, the file lands in the
    output directory. *)
Lemma os_path_join_output_dir video_id :
  startswith_char video_id "/" = false ->
  os_path_join output_dir (video_id +:+ ".mp4") =
  "videos/" +:+ video_id +:+ ".mp4".
Proof.
  intros Hrel. unfold os_path_join.
  replace (startswith_char (video_id +:+ ".mp4") "/") with false.
  - reflexivity.
  - destruct video_id as [|c rest]; [reflexivity|].
    symmetry. exact Hrel.
Qed.

(** Whenever the downloader returns, it returns the joined path and has
    written to it. *)
Lemma download_video_path {World : Type} `{!Collaborators World}
    (g : Globals) video_id (w : World) path :
  result (download_video g video_id w) = Ret path ->
  path = os_path_join output_dir (video_id +:+ ".mp4") /\
  In (EvWriteToFile path) (events (download_video g video_id w)).
Proof.
  unfold download_video. run_cases; intros Hret;
    try discriminate Hret; injection Hret as <-;
    (split; [reflexivity | cbn; tauto]).
Qed.

(** ** Concrete runs against the scripted service *)

(** The stuck service stays stuck: sleeping and retrieving leave an
    empty script and the same standing answer. *)
Lemma stuck_world_poll_run k :
  fst (poll_run demo_globals k "abc123" stuck_world) =
    inr (snapshot "abc123" "queued") /\
  on_retrieve (snd (poll_run demo_globals k "abc123" stuck_world)) = [] /\
  on_retrieve_after (snd (poll_run demo_globals k "abc123" stuck_world)) =
    inr (snapshot "abc123" "queued").
Proof.
  induction k as [|k (IHr & IHs & IHa)].
  - repeat split.
  - cbn [poll_run videos_retrieve time_sleep scripted_world].
    unfold scripted_retrieve, scripted_sleep. cbn [on_retrieve on_retrieve_after].
    rewrite IHs, IHa. repeat split; assumption.
Qed.

Lemma stuck_world_pending j :
  pending_at demo_globals "abc123" stuck_world j.
Proof.
  exists (snapshot "abc123" "queued"). split.
  - apply stuck_world_poll_run.
  - reflexivity.
Qed.

Lemma wait_for_completion_returns_terminal_witness :
  result (wait_for_completion demo_globals 5 "abc123" happy_world) =
    Ret (snapshot "abc123" "completed") /\
  In (Video.status (snapshot "abc123" "completed"))
     ["completed"; "failed"; "cancelled"].
Proof.
  assert (H : result (wait_for_completion demo_globals 5 "abc123" happy_world)
              = Ret (snapshot "abc123" "completed"))
    by (vm_compute; reflexivity).
  split; [exact H|].
  exact (proj1 (wait_for_completion_returns_terminal
                  demo_globals 5%nat "abc123" happy_world _ H)).
Defined.

(** C3, as the specification words it, fails on the first iteration of
    a run: the status is not terminal, and the body sleeps before it
    retrieves. *)
Lemma iteration_order_counterexample :
  ~ (is_terminal (Video.status (snapshot "abc123" "queued")) = true \/
     retrieves_then_sleeps "abc123"
       (events (poll_once demo_globals "abc123" 0
                  (snapshot "abc123" "queued") happy_world))).
Proof.
  intros [Hterm | Horder].
  - vm_compute in Hterm. discriminate Hterm.
  - vm_compute in Horder. discriminate Horder.
Qed.

Lemma polling_has_no_bound_witness :
  result (wait_for_completion demo_globals 2 "abc123" happy_world) =
    Ret (snapshot "abc123" "completed") /\
  result (wait_for_completion demo_globals 7 "abc123" stuck_world) =
    OutOfFuel /\
  retrievals (events (wait_for_completion demo_globals 7 "abc123"
                        stuck_world)) = 8%nat.
Proof.
  destruct (polling_has_no_bound demo_globals "abc123" happy_world)
    as (Hreach & _ & _).
  destruct (polling_has_no_bound demo_globals "abc123" stuck_world)
    as (_ & _ & Hstuck).
  split.
  - apply (Hreach 2%nat); [|lia].
    split; [|split].
    + intros j Hj. exists (snapshot "abc123" "queued").
      destruct j as [|[|j]]; [split; reflexivity | split; reflexivity | lia].
    + reflexivity.
    + reflexivity.
  - destruct (Hstuck stuck_world_pending 7%nat) as (Hres & Hretr & _).
    split; [exact Hres | exact Hretr].
Defined.

Lemma retrievals_exceed_sleeps_by_one_witness :
  result (wait_for_completion demo_globals 5 "abc123" flaky_world) =
    Raise (Exn "APIConnectionError" "Connection error.") /\
  retrievals (events (wait_for_completion demo_globals 5 "abc123"
                        flaky_world)) =
  S (sleeps (events (wait_for_completion demo_globals 5 "abc123"
                       flaky_world))).
Proof.
  assert (H : result (wait_for_completion demo_globals 5 "abc123" flaky_world)
              = Raise (Exn "APIConnectionError" "Connection error."))
    by (vm_compute; reflexivity).
  split; [exact H|].
  apply (retrievals_exceed_sleeps_by_one demo_globals 5%nat "abc123"
           flaky_world).
  rewrite H. discriminate.
Defined.

Lemma download_iff_completed_witness :
  In (EvEnter "download_video") (events (main demo_globals 5 happy_world)) /\
  ~ In (EvEnter "download_video") (events (main demo_globals 5 failing_world)).
Proof.
  split.
  - apply (proj1 (proj2 (download_iff_completed demo_globals 5%nat
                           happy_world))).
    exists (snapshot "abc123" "queued"), (snapshot "abc123" "completed").
    repeat split; vm_compute; reflexivity.
  - apply (proj2 (proj2 (download_iff_completed demo_globals 5%nat
                           failing_world))
             (snapshot "abc123" "queued") (snapshot "abc123" "failed")).
    + vm_compute; reflexivity.
    + vm_compute; reflexivity.
    + left. reflexivity.
Defined.


(** C8. For the id "abc123" the downloader writes to and returns
    [videos/abc123.mp4]. For an id that begins with a slash it does
    not write under the output directory: [os.path.join] drops
    "videos" and the file goes to the path the id names. *)
Theorem download_video_absolute_id :
  result (download_video demo_globals "abc123" happy_world) =
    Ret "videos/abc123.mp4" /\
  In (EvWriteToFile "videos/abc123.mp4")
     (events (download_video demo_globals "abc123" happy_world)) /\
  result (download_video demo_globals "/tmp/x" happy_world) =
    Ret "/tmp/x.mp4" /\
  In (EvWriteToFile "/tmp/x.mp4")
     (events (download_video demo_globals "/tmp/x" happy_world)) /\
  "/tmp/x.mp4" <> output_dir +:+ "/" +:+ "/tmp/x" +:+ ".mp4".
Proof.
  split; [vm_compute; reflexivity|].
  split; [vm_compute; tauto|].
  split; [vm_compute; reflexivity|].
  split; [vm_compute; tauto|].
  vm_compute. discriminate.
Qed.



Lemma missing_configuration_raises_first_witness :
  os_getenv (load_dotenv demo_environ ∅) "AZURE_MODEL_NAME" = None /\
  script demo_environ ∅ 5 happy_world =
    Run [] (Raise missing_variables) happy_world.
Proof.
  assert (H : os_getenv (load_dotenv demo_environ ∅) "AZURE_MODEL_NAME" = None)
    by (vm_compute; reflexivity).
  split; [exact H|].
  apply (missing_configuration_raises_first demo_environ ∅
           "AZURE_MODEL_NAME" 5%nat happy_world).
  - cbn. tauto.
  - exact H.
Defined.

(** * Further properties of the script *)

(** ** The module level *)

(** A variable of the process environment hides the one of the [.env]
    file, which is not read at all when loading is disabled. *)
Lemma getenv_load_dotenv (environ dotenv : gmap string string) name :
  os_getenv (load_dotenv environ dotenv) name =
  if dotenv_disabled environ then environ !! name
  else match environ !! name with
       | Some v => Some v
       | None => dotenv !! name
       end.
Proof.
  unfold os_getenv, load_dotenv. destruct (dotenv_disabled environ).
  - reflexivity.
  - rewrite lookup_union.
    destruct (environ !! name), (dotenv !! name); reflexivity.
Qed.

Lemma getenv_load_dotenv_Some (environ dotenv : gmap string string) name v :
  os_getenv (load_dotenv environ dotenv) name = Some v ->
  match environ !! name with
  | Some v' => Some v'
  | None => dotenv !! name
  end = Some v.
Proof.
  rewrite getenv_load_dotenv. destruct (dotenv_disabled environ).
  - intros ->. reflexivity.
  - intros H. exact H.
Qed.

Lemma py_not_false x : py_not x = false <-> exists v, x = Some v /\ v <> "".
Proof.
  destruct x as [v|]; cbn.
  - rewrite String.eqb_neq. split.
    + intros Hv. exists v. split; [reflexivity | exact Hv].
    + intros (v' & [= <-] & Hv). exact Hv.
  - split; [discriminate | intros (v & Hv & _); discriminate].
Qed.

(** X1. A required variable that is set to the empty string is refused
    like one that is not set: the script raises the [ValueError] before
    it does anything else and exits with status 1. *)
Theorem empty_configuration_raises_first
    {World : Type} `{!Collaborators World}
    (environ dotenv : gmap string string) (name : string) (fuel : nat)
    (w : World) :
  In name required_variables ->
  os_getenv (load_dotenv environ dotenv) name = Some "" ->
  script environ dotenv fuel w = Run [] (Raise missing_variables) w /\
  exit_status (result (script environ dotenv fuel w)) = Some 1.
Proof.
  intros Hin Hblank.
  assert (Hinit : module_init environ dotenv w = inl missing_variables).
  { unfold module_init. cbn zeta.
    destruct Hin as [<- | [<- | [<- | []]]]; rewrite Hblank; cbn [py_not];
      cbn [String.eqb]; rewrite ?orb_true_r; reflexivity. }
  unfold script. rewrite Hinit. split; reflexivity.
Qed.

(** X2. When the module level passes, the three globals are the values
    of the three variables, each taken from the process environment if
    it is set there and from the [.env] file otherwise; none is empty;
    the base URL is [https://<resource>/openai/v1/] and the client is
    built from the key and that URL. *)
Theorem module_init_binds_the_environment
    {World : Type} `{!Collaborators World}
    (environ dotenv : gmap string string) (w : World) (g : Globals) :
  module_init environ dotenv w = inr g ->
  let value name :=
    match environ !! name with
    | Some v => Some v
    | None => dotenv !! name
    end in
  value "AZURE_API_KEY" = Some (api_key g) /\
  value "AZURE_RESOURCE_NAME" = Some (resource_name g) /\
  value "AZURE_MODEL_NAME" = Some (model_name g) /\
  api_key g <> "" /\ resource_name g <> "" /\ model_name g <> "" /\
  base_url g = "https://" +:+ resource_name g +:+ "/openai/v1/" /\
  client g = {| client_api_key := api_key g; client_base_url := base_url g |}.
Proof.
  intros Hinit value. subst value. cbn beta.
  revert Hinit. unfold module_init. cbn zeta.
  destruct (py_not (os_getenv (load_dotenv environ dotenv) "AZURE_API_KEY"))
    eqn:Hk; [discriminate|].
  destruct (py_not (os_getenv (load_dotenv environ dotenv)
                      "AZURE_RESOURCE_NAME")) eqn:Hr; [discriminate|].
  destruct (py_not (os_getenv (load_dotenv environ dotenv)
                      "AZURE_MODEL_NAME")) eqn:Hm; [discriminate|].
  cbn [orb].
  apply py_not_false in Hk as (k & Hk & Hk').
  apply py_not_false in Hr as (r & Hr & Hr').
  apply py_not_false in Hm as (m & Hm & Hm').
  rewrite Hk, Hr, Hm. cbn [default]. unfold id.
  destruct (openai_raises k ("https://" +:+ r +:+ "/openai/v1/") w);
    [discriminate|].
  intros [= <-]. cbn.
  rewrite (getenv_load_dotenv_Some _ _ _ _ Hk),
          (getenv_load_dotenv_Some _ _ _ _ Hr),
          (getenv_load_dotenv_Some _ _ _ _ Hm).
  repeat split; assumption.
Qed.

(** X3. With the three variables set to non-empty values, what the
    script does rests on the constructor of the client, called with the
    key and [https://<resource>/openai/v1/]: if it raises, for an
    unparsable URL say, the script raises that error at once, before
    [main] and without any event; if it does not, the script is [main]
    run with these values. *)
Theorem script_runs_main_when_configured
    {World : Type} `{!Collaborators World}
    (environ dotenv : gmap string string) (key resource model : string)
    (fuel : nat) (w : World) :
  os_getenv (load_dotenv environ dotenv) "AZURE_API_KEY" = Some key ->
  os_getenv (load_dotenv environ dotenv) "AZURE_RESOURCE_NAME" =
    Some resource ->
  os_getenv (load_dotenv environ dotenv) "AZURE_MODEL_NAME" = Some model ->
  key <> "" -> resource <> "" -> model <> "" ->
  script environ dotenv fuel w =
  match openai_raises key ("https://" +:+ resource +:+ "/openai/v1/") w with
  | Some e => Run [] (Raise e) w
  | None =>
      main {| api_key := key; resource_name := resource; model_name := model;
              base_url := "https://" +:+ resource +:+ "/openai/v1/";
              client := {| client_api_key := key;
                           client_base_url :=
                             "https://" +:+ resource +:+ "/openai/v1/" |} |}
           fuel w
  end.
Proof.
  intros Hk Hr Hm Hk' Hr' Hm'.
  unfold script, module_init. cbn zeta. rewrite Hk, Hr, Hm. cbn [py_not].
  apply String.eqb_neq in Hk', Hr', Hm'. rewrite Hk', Hr', Hm'.
  cbn [orb default]. unfold id.
  destruct (openai_raises key ("https://" +:+ resource +:+ "/openai/v1/") w);
    reflexivity.
Qed.

(** ** More on the poller *)

Lemma filter_skip (p : event -> bool) e evs :
  p e = false -> List.filter p (e :: evs) = List.filter p evs.
Proof. intros He. cbn. rewrite He. reflexivity. Qed.

Lemma filter_keep (p : event -> bool) e evs :
  p e = true -> List.filter p (e :: evs) = e :: List.filter p evs.
Proof. intros He. cbn. rewrite He. reflexivity. Qed.

Lemma notes_poll_event video_id evs :
  notes evs -> Forall (fun e => poll_event video_id e = true) evs.
Proof.
  intros Hn. induction Hn as [|e evs He _ IH]; constructor.
  - destruct e; cbn in *; congruence.
  - exact IH.
Qed.

Section PollerExtras.
Context {World : Type} `{!Collaborators World}.
Variable g : Globals.

Lemma poll_while_shape fuel video_id start_time :
  forall video (w : World),
    Forall (fun e => poll_event video_id e = true)
           (events (poll_while g fuel video_id start_time video w)).
Proof.
  induction fuel as [|fuel IH]; intros video w.
  - destruct (is_terminal (Video.status video)) eqn:Ht.
    + rewrite poll_while_terminal by exact Ht. constructor.
    + rewrite poll_while_starved by exact Ht. constructor.
  - destruct (is_terminal (Video.status video)) eqn:Ht.
    + rewrite poll_while_terminal by exact Ht. constructor.
    + rewrite poll_while_pending by exact Ht.
      rewrite events_bind, poll_once_run. cbn [events result final].
      apply Forall_app_2.
      * repeat constructor. cbn. apply String.eqb_refl.
      * destruct (fst (videos_retrieve (client g) video_id
                         (time_sleep poll_interval w)));
          [constructor | apply IH].
Qed.

Lemma poll_while_no_verdict fuel video_id start_time :
  forall video (w : World),
    List.filter is_verdict
      (events (poll_while g fuel video_id start_time video w)) = [].
Proof.
  induction fuel as [|fuel IH]; intros video w.
  - destruct (is_terminal (Video.status video)) eqn:Ht.
    + rewrite poll_while_terminal by exact Ht. reflexivity.
    + rewrite poll_while_starved by exact Ht. reflexivity.
  - destruct (is_terminal (Video.status video)) eqn:Ht.
    + rewrite poll_while_terminal by exact Ht. reflexivity.
    + rewrite poll_while_pending by exact Ht.
      rewrite events_bind, poll_once_run. cbn [events result final].
      rewrite List.filter_app.
      rewrite !filter_skip by reflexivity.
      destruct (fst (videos_retrieve (client g) video_id
                       (time_sleep poll_interval w)));
        rewrite ?IH; reflexivity.
Qed.

(** X4. The poller does not retry: when the replies before the [n]-th
    are pending and the [n]-th retrieval raises [e], a run that is given
    time for [n] rounds raises [e] itself, after [n] sleeps and [n + 1]
    retrievals, and leaves the world as that last call left it. *)
Theorem wait_for_completion_propagates_error
    n e fuel video_id (w : World) :
  pending_until g n video_id w ->
  reply g n video_id w = inl e ->
  (n <= fuel)%nat ->
  result (wait_for_completion g fuel video_id w) = Raise e /\
  timing (events (wait_for_completion g fuel video_id w)) =
    EvRetrieve video_id :: rounds video_id n /\
  final (wait_for_completion g fuel video_id w) =
    snd (poll_run g n video_id w).
Proof.
  intros Hpend Hn Hle.
  destruct (wait_for_completion_replies g fuel video_id w)
    as (n' & Hn' & Htim & Hpend' & Hfin & Hout).
  assert (Hnn : (n' < n \/ n' = n \/ n < n')%nat) by lia.
  destruct Hnn as [Hlt | [-> | Hgt]].
  - specialize (Hpend n' Hlt).
    destruct (result (wait_for_completion g fuel video_id w)) as [v'|e'|].
    + destruct Hout as [Hr Ht].
      destruct (pending_not_terminal g _ _ _ _ Hpend Hr Ht).
    + destruct (pending_not_raise g _ _ _ _ Hpend Hout).
    + lia.
  - destruct (result (wait_for_completion g fuel video_id w)) as [v'|e'|].
    + destruct Hout as [Hr _]. congruence.
    + split; [congruence | split; assumption].
    + destruct Hout as [_ Hp]. destruct (pending_not_raise g _ _ _ _ Hp Hn).
  - destruct (pending_not_raise g _ _ _ _ (Hpend' n Hgt) Hn).
Qed.

Lemma wait_for_completion_shape fuel video_id (w : World) :
  Forall (fun e => poll_event video_id e = true)
         (events (wait_for_completion g fuel video_id w)).
Proof.
  destruct (reply g 0 video_id w) as [e|v0] eqn:H0.
  - rewrite (wait_for_completion_first_raise g fuel video_id w e H0).
    cbn [events]. apply Forall_app_2.
    + repeat constructor.
    + repeat constructor. cbn. apply String.eqb_refl.
  - destruct (wait_for_completion_first_ret g fuel video_id w v0 H0)
      as (_ & _ & after & Hev & Hafter).
    rewrite Hev. apply Forall_app_2; [repeat constructor|].
    constructor; [cbn; apply String.eqb_refl|].
    constructor; [reflexivity|].
    apply Forall_app_2; [apply poll_while_shape|].
    apply notes_poll_event. exact Hafter.
Qed.

(** X5. Whatever the service answers, a run of the poller for
    [video_id] does nothing but print, retrieve that very id and sleep
    ten seconds: it creates nothing, downloads nothing and does not
    touch the disk. *)
Theorem wait_for_completion_only_polls fuel video_id (w : World) :
  Forall (fun e => poll_event video_id e = true)
         (events (wait_for_completion g fuel video_id w)).
Proof. apply wait_for_completion_shape. Qed.

Lemma report_outcome_no_verdict start_time video (w : World) :
  List.filter is_verdict (events (report_outcome start_time video w)) = [].
Proof.
  unfold report_outcome, print_if_truthy.
  destruct (String.eqb (Video.status video) "completed"),
    (Video.error video) as [v1|], (Video.failure_reason video) as [v2|];
    try destruct (truthy v1); try destruct (truthy v2);
    cbn [bind peek print ret events result final app];
    rewrite ?filter_skip by reflexivity; reflexivity.
Qed.

Lemma wait_for_completion_no_verdict fuel video_id (w : World) :
  List.filter is_verdict (events (wait_for_completion g fuel video_id w)) = [].
Proof.
  assert (Hrest : forall start_time v0 (w1 : World),
            List.filter is_verdict
              (events
                 (bind (print ("Initial status: " +:+ Video.status v0))
                    (fun _ =>
                       bind (poll_while g fuel video_id start_time v0)
                         (fun v =>
                            bind (report_outcome start_time v)
                                 (fun _ => ret v))) w1)) = []).
  { intros start_time v0 w1.
    rewrite events_bind. cbn [print events result final app].
    rewrite filter_skip by reflexivity.
    rewrite events_bind, List.filter_app, poll_while_no_verdict.
    destruct (result (poll_while g fuel video_id start_time v0 w1))
      as [v|e|]; [|reflexivity..].
    rewrite events_bind, List.filter_app, report_outcome_no_verdict.
    destruct (result (report_outcome start_time v _)); reflexivity. }
  rewrite wait_for_completion_unfold. cbn zeta. cbn [events].
  rewrite List.filter_app. unfold announce_wait.
  rewrite !filter_skip by reflexivity. cbn [List.filter app].
  rewrite events_bind, List.filter_app.
  destruct (result (retrieve g video_id w)) as [v0|e|].
  - rewrite Hrest, app_nil_r. reflexivity.
  - rewrite app_nil_r. reflexivity.
  - rewrite app_nil_r. reflexivity.
Qed.

End PollerExtras.

(** ** More on the downloader *)

Lemma os_path_join_videos video_id :
  os_path_join output_dir (video_id +:+ ".mp4") =
  if startswith_char video_id "/" then video_id +:+ ".mp4"
  else "videos/" +:+ video_id +:+ ".mp4".
Proof.
  unfold os_path_join.
  replace (startswith_char (video_id +:+ ".mp4") "/")
    with (startswith_char video_id "/")
    by (destruct video_id; reflexivity).
  destruct (startswith_char video_id "/"); reflexivity.
Qed.

Section DownloaderExtras.
Context {World : Type} `{!Collaborators World}.
Variable g : Globals.

(** X6. When the downloader returns, the path it returns is the one it
    has written to: [videos/<id>.mp4] when the id does not begin with a
    slash, and [<id>.mp4] alone when it does. *)
Theorem download_video_returns_the_written_path video_id (w : World) path :
  result (download_video g video_id w) = Ret path ->
  path = (if startswith_char video_id "/" then video_id +:+ ".mp4"
          else "videos/" +:+ video_id +:+ ".mp4") /\
  In (EvWriteToFile path) (events (download_video g video_id w)).
Proof.
  intros Hret.
  destruct (download_video_path g video_id w path Hret) as [Hpath Hin].
  split; [|exact Hin].
  rewrite Hpath. apply os_path_join_videos.
Qed.

(** X7. What the downloader does to the disk and the service is always
    an initial part of one fixed sequence: make the output directory,
    only if it does not exist; download the content of the id, variant
    "video"; write it to the joined path. A run that returns has done
    all of it. *)
Theorem download_video_follows_its_plan video_id (w : World) :
  (exists rest,
      download_plan (os_path_exists output_dir w) video_id =
      effects (events (download_video g video_id w)) ++ rest) /\
  (forall path,
      result (download_video g video_id w) = Ret path ->
      effects (events (download_video g video_id w)) =
      download_plan (os_path_exists output_dir w) video_id).
Proof.
  unfold download_video, download_plan. run_cases;
    (split;
     [ eexists; cbn; reflexivity
     | intros path Hret; try discriminate Hret; reflexivity ]).
Qed.

(** X8. When the download call raises, the downloader raises the same
    error and nothing is written: its effects end with that call. *)
Theorem download_video_failed_download_writes_nothing video_id (w : World) e :
  (os_path_exists output_dir w = true \/
   exists u, fst (os_makedirs output_dir w) = inr u) ->
  fst (videos_download_content (client g) video_id "video"
         (after_makedirs w)) = inl e ->
  result (download_video g video_id w) = Raise e /\
  effects (events (download_video g video_id w)) =
    (if os_path_exists output_dir w then [] else [EvMakedirs output_dir]) ++
    [EvDownloadContent video_id "video"].
Proof.
  unfold download_video, after_makedirs. intros Hdir Hfetch.
  destruct (os_path_exists output_dir w) eqn:Hpresent.
  - run_steps. rewrite Hpresent. run_steps. rewrite Hfetch.
    split; reflexivity.
  - destruct Hdir as [Hdir | [u Hmade]]; [discriminate|].
    run_steps. rewrite Hpresent. run_steps. rewrite Hmade. run_steps.
    rewrite Hfetch. split; reflexivity.
Qed.

(** X9. When the output directory is missing and cannot be made, the
    downloader raises that error at once: no request is sent and
    nothing is written. *)
Theorem download_video_failed_makedirs_calls_nothing video_id (w : World) e :
  os_path_exists output_dir w = false ->
  fst (os_makedirs output_dir w) = inl e ->
  result (download_video g video_id w) = Raise e /\
  effects (events (download_video g video_id w)) = [EvMakedirs output_dir] /\
  final (download_video g video_id w) = snd (os_makedirs output_dir w).
Proof.
  unfold download_video. intros Hpresent Hmade.
  run_steps. rewrite Hpresent. run_steps. rewrite Hmade.
  repeat split.
Qed.

(** X10. A downloader that returns has handed to [write_to_file] the
    very content the download call answered with, at the returned path,
    and leaves the world as that write left it. *)
Theorem download_video_writes_what_it_fetched video_id (w : World) path :
  result (download_video g video_id w) = Ret path ->
  exists content,
    let fetched :=
      videos_download_content (client g) video_id "video"
        (after_makedirs w) in
    fst fetched = inr content /\
    fst (write_to_file content path (snd fetched)) = inr tt /\
    final (download_video g video_id w) =
      snd (write_to_file content path (snd fetched)).
Proof.
  unfold download_video, after_makedirs.
  destruct (os_path_exists output_dir w) eqn:Hpresent.
  - run_steps. rewrite Hpresent. run_steps.
    destruct (fst (videos_download_content (client g) video_id "video" w))
      as [e|content] eqn:Hfetch; run_steps; [discriminate|].
    destruct (fst (write_to_file content _ _)) as [e|[]] eqn:Hwrite;
      run_steps; [discriminate|].
    destruct (os_path_getsize _ _) as [e|file_size]; run_steps;
      [discriminate|].
    intros [= <-]. exists content. cbn zeta.
    repeat split; first [assumption | reflexivity].
  - run_steps. rewrite Hpresent. run_steps.
    destruct (fst (os_makedirs output_dir w)) as [e|[]] eqn:Hmade;
      run_steps; [discriminate|].
    destruct (fst (videos_download_content (client g) video_id "video" _))
      as [e|content] eqn:Hfetch; run_steps; [discriminate|].
    destruct (fst (write_to_file content _ _)) as [e|[]] eqn:Hwrite;
      run_steps; [discriminate|].
    destruct (os_path_getsize _ _) as [e|file_size]; run_steps;
      [discriminate|].
    intros [= <-]. exists content. cbn zeta.
    repeat split; first [assumption | reflexivity].
Qed.

End DownloaderExtras.

(** ** More on the orchestrator *)

Lemma filter_remote_poll_events video_id evs :
  Forall (fun e => poll_event video_id e = true) evs ->
  List.filter is_remote evs = List.filter is_remote (timing evs).
Proof.
  intros Hall. induction Hall as [|e evs He _ IH]; [reflexivity|].
  destruct e; cbn in He; try discriminate He; cbn; rewrite ?IH; reflexivity.
Qed.

Lemma filter_remote_rounds video_id n :
  List.filter is_remote (rounds video_id n) =
  repeat (EvRetrieve video_id) n.
Proof.
  induction n as [|n IH]; [reflexivity|]. cbn. rewrite IH. reflexivity.
Qed.

Lemma filter_In_keep (p : event -> bool) e evs :
  p e = true -> (In e evs <-> In e (List.filter p evs)).
Proof.
  intros He. rewrite List.filter_In. tauto.
Qed.

Section MainExtras.
Context {World : Type} `{!Collaborators World}.
Variable g : Globals.

Lemma wait_for_completion_remote fuel video_id (w : World) :
  exists n, (n <= fuel)%nat /\
    List.filter is_remote (events (wait_for_completion g fuel video_id w)) =
    repeat (EvRetrieve video_id) (S n).
Proof.
  destruct (wait_for_completion_replies g fuel video_id w)
    as (n & Hn & Htim & _).
  exists n. split; [exact Hn|].
  rewrite (filter_remote_poll_events video_id)
    by apply wait_for_completion_shape.
  rewrite Htim. cbn. rewrite filter_remote_rounds. reflexivity.
Qed.

Lemma download_video_remote video_id (w : World) :
  List.filter is_remote (events (download_video g video_id w)) = [] \/
  List.filter is_remote (events (download_video g video_id w)) =
    [EvDownloadContent video_id "video"].
Proof.
  unfold download_video. run_cases;
    first [left; reflexivity | right; reflexivity].
Qed.

Lemma download_video_no_verdict video_id (w : World) :
  List.filter is_verdict (events (download_video g video_id w)) = [].
Proof.
  unfold download_video. run_cases;
    rewrite ?filter_skip by reflexivity; reflexivity.
Qed.

Lemma generate_video_no_verdict (w : World) :
  List.filter is_verdict (events (generate_video g w)) = [].
Proof.
  unfold generate_video. run_cases;
    rewrite ?filter_skip by reflexivity; reflexivity.
Qed.

(** The events of a run of [main], stage by stage. *)
Lemma main_events fuel (w : World) :
  events (main g fuel w) =
  EvEnter "main" ::
  (events (generate_video g w) ++
   match result (generate_video g w) with
   | Ret video =>
       let polled :=
         wait_for_completion g fuel (Video.id video)
           (final (generate_video g w)) in
       events polled ++
       match result polled with
       | Ret completed_video =>
           if String.eqb (Video.status completed_video) "completed" then
             let fetched :=
               download_video g (Video.id video) (final polled) in
             events fetched ++
             match result fetched with
             | Ret output_path => complete_banner (Video.id video) output_path
             | _ => []
             end
           else failed_banner completed_video
       | _ => []
       end
   | _ => []
   end) ++
  match result (main_try g fuel w) with
  | Raise e => if is_exception e then diagnostics e else []
  | _ => []
  end.
Proof.
  unfold main. rewrite events_bind. cbn [enter result events final app].
  rewrite events_try. f_equal. f_equal.
  unfold main_try. rewrite events_bind. f_equal.
  destruct (result (generate_video g w)) as [video|e|]; [|reflexivity..].
  cbn zeta. rewrite events_bind. f_equal.
  destruct (result (wait_for_completion g fuel (Video.id video) _))
    as [cv|e|]; [|reflexivity..].
  destruct (String.eqb (Video.status cv) "completed"); [|reflexivity].
  rewrite events_bind. reflexivity.
Qed.

End MainExtras.

Section MainOrder.
Context {World : Type} `{!Collaborators World}.
Variable g : Globals.

Lemma diagnostics_quiet e :
  List.filter is_remote (diagnostics e) = [] /\
  List.filter is_verdict (diagnostics e) = [].
Proof.
  split; [reflexivity|]. unfold diagnostics.
  rewrite !filter_skip by reflexivity. reflexivity.
Qed.

Lemma complete_banner_verdict video_id output_path :
  List.filter is_remote (complete_banner video_id output_path) = [] /\
  List.filter is_verdict (complete_banner video_id output_path) =
    [EvPrint "PIPELINE COMPLETE"].
Proof.
  split; [reflexivity|]. unfold complete_banner.
  repeat first [ rewrite filter_skip by reflexivity
               | rewrite filter_keep by reflexivity ].
  reflexivity.
Qed.

Lemma failed_banner_verdict completed_video :
  List.filter is_remote (failed_banner completed_video) = [] /\
  List.filter is_verdict (failed_banner completed_video) =
    [EvPrint "PIPELINE FAILED"].
Proof.
  split; [reflexivity|]. unfold failed_banner.
  repeat first [ rewrite filter_skip by reflexivity
               | rewrite filter_keep by reflexivity ].
  reflexivity.
Qed.

(** X11. The requests a run of [main] sends go out in stage order: one
    creation request; then, only if it was answered, one or more
    retrievals, all for the id of that answer; then at most one download
    request, for the same id and the variant "video", and only when the
    poll ended on "completed". Nothing is sent after a failed creation. *)
Theorem main_calls_the_service_in_stage_order fuel (w : World) :
  exists polls tail,
    List.filter is_remote (events (main g fuel w)) =
      EvCreate (model_name g) prompt size seconds :: polls ++ tail /\
    match result (generate_video g w) with
    | Ret video =>
        (exists n, (n <= fuel)%nat /\
                   polls = repeat (EvRetrieve (Video.id video)) (S n)) /\
        (tail = [] \/
         tail = [EvDownloadContent (Video.id video) "video"] /\
         downloads_due g fuel w = 1%nat)
    | _ => polls = [] /\ tail = []
    end.
Proof.
  rewrite main_events. rewrite filter_skip by reflexivity.
  rewrite !List.filter_app.
  destruct (generate_video_run g w) as (_ & _ & Hcreate & _).
  rewrite Hcreate.
  assert (Hdiag : List.filter is_remote
                    match result (main_try g fuel w) with
                    | Raise e => if is_exception e then diagnostics e else []
                    | _ => []
                    end = [])
    by (destruct (result (main_try g fuel w)) as [u|e|];
        try destruct (is_exception e); reflexivity).
  rewrite Hdiag, app_nil_r. clear Hdiag.
  unfold downloads_due.
  destruct (result (generate_video g w)) as [video|e|];
    [| exists [], []; split; [reflexivity | split; reflexivity] .. ].
  cbn zeta. rewrite List.filter_app.
  destruct (wait_for_completion_remote g fuel (Video.id video)
              (final (generate_video g w))) as (n & Hn & Hpolls).
  rewrite Hpolls.
  exists (repeat (EvRetrieve (Video.id video)) (S n)).
  destruct (result (wait_for_completion g fuel (Video.id video)
                      (final (generate_video g w)))) as [cv|e|].
  - destruct (String.eqb (Video.status cv) "completed").
    + rewrite List.filter_app.
      assert (Hbanner :
                List.filter is_remote
                  match result (download_video g (Video.id video)
                                  (final (wait_for_completion g fuel
                                            (Video.id video)
                                            (final (generate_video g w)))))
                  with
                  | Ret output_path =>
                      complete_banner (Video.id video) output_path
                  | _ => []
                  end = [])
        by (destruct (result (download_video g (Video.id video) _));
            reflexivity).
      rewrite Hbanner, app_nil_r. clear Hbanner.
      destruct (download_video_remote g (Video.id video)
                  (final (wait_for_completion g fuel (Video.id video)
                            (final (generate_video g w)))))
        as [Hnone | Hone].
      * rewrite Hnone. exists []. split; [reflexivity|].
        split; [exists n; auto | left; reflexivity].
      * rewrite Hone. eexists. split; [reflexivity|].
        split; [exists n; auto | right; split; reflexivity].
    + rewrite (proj1 (failed_banner_verdict cv)).
      exists []. split; [reflexivity|].
      split; [exists n; auto | left; reflexivity].
  - exists []. split; [reflexivity|].
    split; [exists n; auto | left; reflexivity].
  - exists []. split; [reflexivity|].
    split; [exists n; auto | left; reflexivity].
Qed.

Lemma main_verdict fuel (w : World) :
  List.filter is_verdict (events (main g fuel w)) = verdict_due g fuel w.
Proof.
  rewrite main_events. rewrite filter_skip by reflexivity.
  rewrite !List.filter_app, generate_video_no_verdict.
  assert (Hdiag : List.filter is_verdict
                    match result (main_try g fuel w) with
                    | Raise e => if is_exception e then diagnostics e else []
                    | _ => []
                    end = []).
  { destruct (result (main_try g fuel w)) as [u|e|]; [reflexivity| |reflexivity].
    destruct (is_exception e); [apply diagnostics_quiet | reflexivity]. }
  rewrite Hdiag, app_nil_r. clear Hdiag. cbn [app].
  unfold verdict_due.
  destruct (result (generate_video g w)) as [video|e|]; [|reflexivity..].
  cbn zeta. rewrite List.filter_app, wait_for_completion_no_verdict.
  cbn [app].
  destruct (result (wait_for_completion g fuel (Video.id video) _))
    as [cv|e|]; [|reflexivity..].
  destruct (String.eqb (Video.status cv) "completed").
  - rewrite List.filter_app, download_video_no_verdict. cbn [app].
    destruct (result (download_video g (Video.id video) _)) as [path|e|];
      [|reflexivity..].
    apply complete_banner_verdict.
  - apply failed_banner_verdict.
Qed.

(** X12. [main] closes with the banner it owes and no other: "PIPELINE
    COMPLETE" exactly when the downloader returned, "PIPELINE FAILED"
    exactly when the poll ended on another status than "completed", none
    when a stage raised or the poll is still going on. So "PIPELINE
    COMPLETE" is printed only after a file was written, and its path is
    the one reported as saved; "PIPELINE FAILED" is printed only in a
    run that never entered the downloader. *)
Theorem main_prints_the_verdict_it_owes fuel (w : World) :
  List.filter is_verdict (events (main g fuel w)) = verdict_due g fuel w /\
  (In (EvPrint "PIPELINE COMPLETE") (events (main g fuel w)) ->
   exists path,
     In (EvWriteToFile path) (events (main g fuel w)) /\
     In (EvPrint ("Saved to: " +:+ path)) (events (main g fuel w))) /\
  (In (EvPrint "PIPELINE FAILED") (events (main g fuel w)) ->
   calls "download_video" (events (main g fuel w)) = 0%nat).
Proof.
  split; [apply main_verdict|]. split.
  - intros Hin.
    apply (filter_In_keep is_verdict) in Hin; [|reflexivity].
    rewrite main_verdict in Hin. unfold verdict_due in Hin.
    destruct (result (generate_video g w)) as [video|e|] eqn:Hgen;
      [|destruct Hin..].
    cbn zeta in Hin.
    destruct (result (wait_for_completion g fuel (Video.id video) _))
      as [cv|e|] eqn:Hpoll; [|destruct Hin..].
    destruct (String.eqb (Video.status cv) "completed") eqn:Hc.
    + destruct (result (download_video g (Video.id video) _))
        as [path|e|] eqn:Hdl; [|destruct Hin..].
      exists path.
      destruct (download_video_path g _ _ _ Hdl) as [_ Hwritten].
      rewrite main_events, Hgen. cbn zeta. rewrite Hpoll, Hc, Hdl.
      split; right; rewrite !in_app_iff.
      * left. right. right. left. exact Hwritten.
      * left. right. right. right. cbn. tauto.
    + destruct Hin as [Hin | []]. discriminate Hin.
  - intros Hin.
    apply (filter_In_keep is_verdict) in Hin; [|reflexivity].
    rewrite main_verdict in Hin. rewrite main_calls.
    unfold verdict_due in Hin. unfold downloads_due.
    destruct (result (generate_video g w)) as [video|e|];
      [|reflexivity..].
    cbn zeta in Hin.
    destruct (result (wait_for_completion g fuel (Video.id video) _))
      as [cv|e|]; [|reflexivity..].
    destruct (String.eqb (Video.status cv) "completed"); [|reflexivity].
    destruct (result (download_video g (Video.id video) _));
      [destruct Hin as [Hin | []]; discriminate Hin | destruct Hin..].
Qed.

End MainOrder.

(** ** The printed file size *)

Lemma filter_commas_rev l :
  forall k, List.filter not_comma (commas_rev k l) = List.filter not_comma l.
Proof.
  induction l as [|d ds IH]; intros k; [reflexivity|].
  destruct k as [|[|[|[|k]]]]; cbn; rewrite IH; reflexivity.
Qed.

Lemma strip_commas_group_digits s :
  strip_commas (group_digits s) = strip_commas s.
Proof.
  unfold strip_commas, group_digits.
  rewrite list_ascii_of_string_of_list_ascii.
  rewrite List.filter_rev, filter_commas_rev, <- List.filter_rev.
  rewrite List.rev_involutive. reflexivity.
Qed.

Lemma strip_commas_String c s :
  not_comma c = true -> strip_commas (String c s) = String c (strip_commas s).
Proof. intros Hc. unfold strip_commas. cbn. rewrite Hc. reflexivity. Qed.

Lemma not_comma_digit x : not_comma (pretty_N_char x) = true.
Proof. unfold pretty_N_char. repeat case_match; reflexivity. Qed.

Lemma strip_commas_pretty_N_go x :
  forall s, strip_commas s = s ->
            strip_commas (pretty_N_go x s) = pretty_N_go x s.
Proof.
  induction (N.lt_wf_0 x) as [x _ IH]. intros s Hs.
  destruct (decide (x = 0%N)) as [->|Hx].
  - rewrite pretty_N_go_0. exact Hs.
  - rewrite pretty_N_go_step by lia. apply IH.
    + apply N.div_lt; lia.
    + rewrite strip_commas_String by apply not_comma_digit.
      rewrite Hs. reflexivity.
Qed.

Lemma strip_commas_pretty_positive (p : positive) :
  strip_commas (pretty (Zpos p)) = pretty (Zpos p).
Proof.
  change (pretty (Zpos p)) with (pretty_N_go (Npos p) "").
  apply strip_commas_pretty_N_go. reflexivity.
Qed.

(** X13. The size printed with [:,] is the decimal numeral of the size
    with commas put in: taking the commas out gives the numeral back,
    for every integer. *)
Theorem format_commas_keeps_the_digits (n : Z) :
  strip_commas (format_commas n) = pretty n.
Proof.
  unfold format_commas. destruct n as [|p|p]; cbn [Z.ltb Z.compare Z.opp].
  - reflexivity.
  - rewrite strip_commas_group_digits. apply strip_commas_pretty_positive.
  - change (strip_commas
              (String "-" (group_digits (pretty (Zpos p)))) =
            String "-" (pretty (Zpos p))).
    rewrite strip_commas_String by reflexivity.
    rewrite strip_commas_group_digits, strip_commas_pretty_positive.
    reflexivity.
Qed.

(** ** Concrete runs for the further properties *)

Lemma empty_configuration_raises_first_witness :
  os_getenv (load_dotenv blank_environ ∅) "AZURE_API_KEY" = Some "" /\
  exit_status (result (script blank_environ ∅ 5 happy_world)) = Some 1.
Proof.
  assert (H : os_getenv (load_dotenv blank_environ ∅) "AZURE_API_KEY" = Some "")
    by (vm_compute; reflexivity).
  split; [exact H|].
  apply (empty_configuration_raises_first blank_environ ∅
           "AZURE_API_KEY" 5%nat happy_world).
  - cbn. tauto.
  - exact H.
Defined.

Lemma module_init_binds_the_environment_witness :
  module_init demo_environ demo_dotenv happy_world = inr demo_globals /\
  api_key demo_globals <> "" /\
  base_url demo_globals =
    "https://" +:+ resource_name demo_globals +:+ "/openai/v1/".
Proof.
  assert (H : module_init demo_environ demo_dotenv happy_world
              = inr demo_globals)
    by (vm_compute; reflexivity).
  split; [exact H|].
  destruct (module_init_binds_the_environment demo_environ demo_dotenv
              happy_world demo_globals H) as (_ & _ & _ & Hkey & _ & _ & Hurl & _).
  split; [exact Hkey | exact Hurl].
Defined.

Lemma script_runs_main_when_configured_witness :
  script demo_environ demo_dotenv 5 happy_world =
    main demo_globals 5 happy_world /\
  script bad_port_environ ∅ 5 happy_world =
    Run [] (Raise (Exn "InvalidURL" "https://a:b/openai/v1/")) happy_world.
Proof.
  split.
  - rewrite (script_runs_main_when_configured demo_environ demo_dotenv
               "secret" "example.openai.azure.com" "sora-2" 5%nat happy_world);
      [ reflexivity
      | vm_compute; reflexivity | vm_compute; reflexivity
      | vm_compute; reflexivity
      | discriminate | discriminate | discriminate ].
  - rewrite (script_runs_main_when_configured bad_port_environ ∅
               "secret" "a:b" "sora-2" 5%nat happy_world);
      [ reflexivity
      | vm_compute; reflexivity | vm_compute; reflexivity
      | vm_compute; reflexivity
      | discriminate | discriminate | discriminate ].
Defined.

Lemma wait_for_completion_propagates_error_witness :
  result (wait_for_completion demo_globals 5 "abc123" flaky_world) =
    Raise (Exn "APIConnectionError" "Connection error.") /\
  timing (events (wait_for_completion demo_globals 5 "abc123" flaky_world)) =
    [EvRetrieve "abc123"; EvSleep 10; EvRetrieve "abc123"].
Proof.
  destruct (wait_for_completion_propagates_error demo_globals 1%nat
              (Exn "APIConnectionError" "Connection error.") 5%nat
              "abc123" flaky_world) as (Hres & Htim & _).
  - intros j Hj. exists (snapshot "abc123" "queued").
    destruct j as [|j]; [split; reflexivity | lia].
  - reflexivity.
  - lia.
  - split; [exact Hres | exact Htim].
Defined.

Lemma download_video_returns_the_written_path_witness :
  result (download_video demo_globals "abc123" happy_world) =
    Ret "videos/abc123.mp4" /\
  In (EvWriteToFile "videos/abc123.mp4")
     (events (download_video demo_globals "abc123" happy_world)).
Proof.
  assert (H : result (download_video demo_globals "abc123" happy_world)
              = Ret "videos/abc123.mp4") by (vm_compute; reflexivity).
  split; [exact H|].
  exact (proj2 (download_video_returns_the_written_path demo_globals
                  "abc123" happy_world _ H)).
Defined.

Lemma download_video_follows_its_plan_witness :
  effects (events (download_video demo_globals "abc123" happy_world)) =
  [EvMakedirs "videos"; EvDownloadContent "abc123" "video";
   EvWriteToFile "videos/abc123.mp4"].
Proof.
  rewrite (proj2 (download_video_follows_its_plan demo_globals "abc123"
                    happy_world) "videos/abc123.mp4")
    by (vm_compute; reflexivity).
  vm_compute. reflexivity.
Defined.

Lemma download_video_failed_download_writes_nothing_witness :
  result (download_video demo_globals "abc123" failing_world) =
    Raise (Exn "NotFoundError" "no content") /\
  effects (events (download_video demo_globals "abc123" failing_world)) =
    [EvMakedirs "videos"; EvDownloadContent "abc123" "video"].
Proof.
  destruct (download_video_failed_download_writes_nothing demo_globals
              "abc123" failing_world (Exn "NotFoundError" "no content"))
    as (Hres & Heff).
  - right. exists tt. reflexivity.
  - vm_compute; reflexivity.
  - split; [exact Hres|]. rewrite Heff. vm_compute. reflexivity.
Defined.

Lemma download_video_failed_makedirs_calls_nothing_witness :
  result (@download_video unit read_only_disk demo_globals "abc123" tt) =
    Raise (Exn "PermissionError" "videos") /\
  effects (events (@download_video unit read_only_disk demo_globals
                     "abc123" tt)) = [EvMakedirs "videos"].
Proof.
  destruct (@download_video_failed_makedirs_calls_nothing unit read_only_disk
              demo_globals "abc123" tt (Exn "PermissionError" "videos"))
    as (Hres & Heff & _).
  - reflexivity.
  - reflexivity.
  - split; [exact Hres | exact Heff].
Defined.

Lemma download_video_writes_what_it_fetched_witness :
  exists content,
    on_download happy_world = inr content /\
    files (final (download_video demo_globals "abc123" happy_world))
      !! "videos/abc123.mp4" = Some content.
Proof.
  destruct (download_video_writes_what_it_fetched demo_globals "abc123"
              happy_world "videos/abc123.mp4") as (content & Hfetch & _ & Hfin).
  - vm_compute; reflexivity.
  - exists content. split.
    + exact Hfetch.
    + rewrite Hfin. cbn [write_to_file scripted_world scripted_write files].
      apply lookup_insert_eq.
Defined.

Lemma main_prints_the_verdict_it_owes_witness :
  exists path,
    In (EvWriteToFile path) (events (main demo_globals 5 happy_world)) /\
    In (EvPrint ("Saved to: " +:+ path))
       (events (main demo_globals 5 happy_world)).
Proof.
  apply (proj1 (proj2 (main_prints_the_verdict_it_owes demo_globals 5%nat
                         happy_world))).
  vm_compute. tauto.
Defined.
